(** * Conveyor alignment monitor: the sampling-and-feedback pipeline of
    [frontend/src/App.js] (main variant), embedded as Rocq definitions.

    The React component is modelled as a state machine.  Its [useState] cells
    form [AppState]; everything else the handlers touch (the video element
    behind [videoRef], camera streams, interval timers, requests in flight,
    images waiting for [onload], the overlay canvas) forms [World].  Handlers
    are written in a small state-and-exception monad so that they read like
    the JavaScript they embed.  JavaScript numbers are IEEE binary64 values,
    modelled by Rocq's primitive floats. *)

From Stdlib Require Import List String ZArith Bool Lia Floats Uint63.
Import ListNotations.
Local Open Scope string_scope.
Local Open Scope list_scope.

(** ** JavaScript values *)

(** The values a parsed response body can hold, plus [undefined]. *)
#[local] Set Warnings "-register-all".
Inductive JsVal : Type :=
| JUndefined
| JNull
| JBool (b : bool)
| JNum (x : float)
| JStr (s : string)
| JArr (elems : list JsVal)
| JObj (props : list (string * JsVal)).

Fixpoint lookup_prop (k : string) (props : list (string * JsVal)) : JsVal :=
  match props with
  | [] => JUndefined
  | (k', v) :: rest => if String.eqb k k' then v else lookup_prop k rest
  end.

(** [v?.k] for a key [k] that no built-in prototype defines (the three
    response keys read by [sendFrame] are such keys): an own property of an
    object, [undefined] on anything else, including [null] and [undefined]. *)
Definition opt_get (v : JsVal) (k : string) : JsVal :=
  match v with
  | JObj props => lookup_prop k props
  | _ => JUndefined
  end.

Definition is_nullish (v : JsVal) : bool :=
  match v with
  | JUndefined | JNull => true
  | _ => false
  end.

(** [v ?? d] *)
Definition nullish_or (v d : JsVal) : JsVal :=
  if is_nullish v then d else v.

(** ToBoolean *)
Definition truthy (v : JsVal) : bool :=
  match v with
  | JUndefined | JNull => false
  | JBool b => b
  | JNum x => negb (PrimFloat.eqb x 0 || PrimFloat.is_nan x)
  | JStr s => negb (String.eqb s EmptyString)
  | JArr _ | JObj _ => true
  end.

(** [v || d] *)
Definition js_or (v d : JsVal) : JsVal :=
  if truthy v then v else d.

(** [v === "literal"] *)
Definition strict_eq_str (v : JsVal) (lit : string) : bool :=
  match v with
  | JStr s => String.eqb s lit
  | _ => false
  end.

(** ToNumber on the values that are not converted through a string. *)
Definition to_number (v : JsVal) : float :=
  match v with
  | JUndefined => PrimFloat.nan
  | JNull => 0%float
  | JBool true => 1%float
  | JBool false => 0%float
  | JNum x => x
  | _ => PrimFloat.nan
  end.

(** Does ToPrimitive turn the value into a string? *)
Definition stringish (v : JsVal) : bool :=
  match v with
  | JStr _ | JArr _ | JObj _ => true
  | _ => false
  end.

(** An unsigned-long DOM attribute ([img.width], [canvas.height], ...) read
    as a JavaScript number.  Exact for the attribute's range. *)
Definition num_of_Z (z : Z) : float := PrimFloat.of_uint63 (Uint63.of_Z z).

Section Engine.

(** Number::toString and Number.prototype.toFixed are built-ins of the
    JavaScript engine; the development is parametric in them. *)
Variable number_to_string : float -> string.
Variable number_to_fixed : float -> nat -> string.

(** ToString; an array joins its elements with commas, [null] and
    [undefined] elements printing as the empty string.  A plain object
    prints through [Object.prototype.toString]; an object that carries an
    own property named toString, for which ToPrimitive throws a TypeError,
    is outside the model. *)
Fixpoint to_string (v : JsVal) : string :=
  match v with
  | JUndefined => "undefined"
  | JNull => "null"
  | JBool true => "true"
  | JBool false => "false"
  | JNum x => number_to_string x
  | JStr s => s
  | JArr elems =>
      let elt (e : JsVal) :=
        if is_nullish e then EmptyString else to_string e in
      (fix join (l : list JsVal) : string :=
         match l with
         | [] => EmptyString
         | [e] => elt e
         | e :: rest => (elt e ++ "," ++ join rest)%string
         end) elems
  | JObj _ => "[object Object]"
  end.

(** The binary [+] operator. *)
Definition js_add (a b : JsVal) : JsVal :=
  if stringish a || stringish b
  then JStr (to_string a ++ to_string b)%string
  else JNum (to_number a + to_number b).

(** ** Measurement records, frames and the overlay canvas *)

(** An encoded still image (a data URL) together with the intrinsic size of
    the picture it encodes, which is what [img.width] and [img.height] give
    once the image has loaded. *)
Record Frame : Type := {
  dataUrl : string;
  frameWidth : Z;
  frameHeight : Z
}.

(** [safeData] of [sendFrame] (lines 127-132). *)
Record SafeData : Type := {
  alignment_offset_pixels : JsVal;
  alignment_offset_mm : JsVal;
  status : JsVal;
  timestamp : float
}.

(** The normalisation of a response body [response.data]. *)
Definition make_safeData (data : JsVal) (ts : float) : SafeData := {|
  alignment_offset_pixels :=
    nullish_or (opt_get data "alignment_offset_pixels") (JNum 0);
  alignment_offset_mm :=
    nullish_or (opt_get data "alignment_offset_mm") (JNum 0);
  status := nullish_or (opt_get data "status") (JStr "UNKNOWN");
  timestamp := ts
|}.

(** [arr.slice(0, n)] *)
Definition slice0 {A : Type} (n : nat) (arr : list A) : list A := firstn n arr.

(** The updater passed to [setAnalysisHistory] (lines 137-140). *)
Definition push_history (safeData : SafeData) (prev : list SafeData)
  : list SafeData :=
  slice0 20 (safeData :: prev).

(** [getStatusColor] (lines 271-276), used for the status badge and the
    history rows. *)
Definition getStatusColor (st : JsVal) : string :=
  if strict_eq_str st "CRITICAL" then "#ff4444"
  else if strict_eq_str st "WARNING" then "#ffaa00"
  else if strict_eq_str st "OK" then "#00ff88"
  else "#888888".

(** The stroke colour [drawOverlay] picks for the detected line
    (lines 186-188). *)
Definition overlay_line_color (st : JsVal) : string :=
  if strict_eq_str st "CRITICAL" then "red"
  else if strict_eq_str st "WARNING" then "orange"
  else "lime".

(** Calls on the 2D context, in the order they are made.  Coordinates of
    path points are kept as the JavaScript values passed. *)
Inductive CanvasOp : Type :=
| DrawImage (img : Frame) (x y : float)
| SetFillStyle (c : string)
| FillRect (x y w h : float)
| SetStrokeStyle (c : string)
| SetLineWidth (w : float)
| SetLineDash (segments : list float)
| BeginPath
| MoveTo (x y : JsVal)
| LineTo (x y : JsVal)
| Stroke
| SetFont (f : string)
| FillText (text : string) (x y : float).

(** The overlay canvas: its size and what was drawn since it was last
    reset.  Assigning [canvas.width] or [canvas.height] resets it. *)
Record Canvas : Type := {
  cwidth : Z;
  cheight : Z;
  drawn : list CanvasOp
}.

Definition initial_canvas : Canvas :=
  {| cwidth := 300; cheight := 150; drawn := [] |}.

Definition set_canvas_width (w : Z) (c : Canvas) : Canvas :=
  {| cwidth := w; cheight := cheight c; drawn := [] |}.

Definition set_canvas_height (h : Z) (c : Canvas) : Canvas :=
  {| cwidth := cwidth c; cheight := h; drawn := [] |}.

Definition draw (ops : list CanvasOp) (c : Canvas) : Canvas :=
  {| cwidth := cwidth c; cheight := cheight c; drawn := drawn c ++ ops |}.

(** The body of [img.onload] in [drawOverlay] (lines 162-205). *)
Definition overlay_onload (img : Frame) (data : SafeData) (canvas : Canvas)
  : Canvas :=
  let canvas := set_canvas_width (frameWidth img) canvas in
  let canvas := set_canvas_height (frameHeight img) canvas in
  let centerX := (num_of_Z (cwidth canvas) / 2)%float in
  let detectedX :=
    js_add (JNum centerX) (js_or (alignment_offset_pixels data) (JNum 0)) in
  let height := JNum (num_of_Z (cheight canvas)) in
  draw
    ([ DrawImage img 0 0;
       SetFillStyle "rgba(0, 0, 0, 0.7)";
       FillRect 10 10 280 80;
       SetStrokeStyle "white";
       SetLineWidth 2;
       SetLineDash [5%float; 5%float];
       BeginPath;
       MoveTo (JNum centerX) (JNum 0);
       LineTo (JNum centerX) height;
       Stroke;
       SetLineDash [];
       SetStrokeStyle (overlay_line_color (status data));
       SetLineWidth 4;
       BeginPath;
       MoveTo detectedX (JNum 0);
       LineTo detectedX height;
       Stroke;
       SetFont "bold 16px Arial";
       SetFillStyle "white";
       FillText ("Offset: " ++ to_string (alignment_offset_mm data) ++ " mm")%string
                20 35;
       FillText ("Status: " ++ to_string (status data))%string 20 65 ]
     ++ (if (0 <? timestamp data)%float
         then [ FillText
                  ("Time: " ++ number_to_fixed (timestamp data) 2 ++ "s")%string
                  20 95 ]
         else []))
    canvas.

(** What a sequence of context calls strokes: every [Stroke] yields the
    current path with the pen settings in force. *)
Record Pen : Type := {
  strokeStyle : string;
  lineWidth : float;
  lineDash : list float;
  path : list (JsVal * JsVal)
}.

Record StrokedPath : Type := {
  sp_style : string;
  sp_width : float;
  sp_dash : list float;
  sp_points : list (JsVal * JsVal)
}.

Definition default_pen : Pen :=
  {| strokeStyle := "#000000"; lineWidth := 1; lineDash := []; path := [] |}.

Fixpoint strokes_from (pen : Pen) (ops : list CanvasOp) : list StrokedPath :=
  match ops with
  | [] => []
  | op :: rest =>
      match op with
      | SetStrokeStyle c =>
          strokes_from {| strokeStyle := c; lineWidth := lineWidth pen;
                          lineDash := lineDash pen; path := path pen |} rest
      | SetLineWidth w =>
          strokes_from {| strokeStyle := strokeStyle pen; lineWidth := w;
                          lineDash := lineDash pen; path := path pen |} rest
      | SetLineDash d =>
          strokes_from {| strokeStyle := strokeStyle pen;
                          lineWidth := lineWidth pen;
                          lineDash := d; path := path pen |} rest
      | BeginPath =>
          strokes_from {| strokeStyle := strokeStyle pen;
                          lineWidth := lineWidth pen;
                          lineDash := lineDash pen; path := [] |} rest
      | MoveTo x y | LineTo x y =>
          strokes_from {| strokeStyle := strokeStyle pen;
                          lineWidth := lineWidth pen;
                          lineDash := lineDash pen;
                          path := path pen ++ [(x, y)] |} rest
      | Stroke =>
          {| sp_style := strokeStyle pen; sp_width := lineWidth pen;
             sp_dash := lineDash pen; sp_points := path pen |}
          :: strokes_from pen rest
      | _ => strokes_from pen rest
      end
  end.

(** The lines visible on a canvas. *)
Definition strokes (c : Canvas) : list StrokedPath :=
  strokes_from default_pen (drawn c).

(** ** Session state *)

(** The three string literals ever passed to [setMode]. *)
Inductive Mode : Type := Upload | Video | Webcam.

Definition mode_eqb (a b : Mode) : bool :=
  match a, b with
  | Upload, Upload | Video, Video | Webcam, Webcam => true
  | _, _ => false
  end.

Record File : Type := {
  fileName : string;
  fileType : string;
  fileSize : Z
}.

(** The [useState] cells of [App] (lines 9-16). *)
Record AppState : Type := {
  mode : Mode;
  videoFile : option File;
  videoUrl : option string;
  result : option SafeData;
  streaming : bool;
  loading : bool;
  analysisHistory : list SafeData;
  isPlaying : bool
}.

Definition initial_app : AppState := {|
  mode := Upload; videoFile := None; videoUrl := None; result := None;
  streaming := false; loading := false; analysisHistory := [];
  isPlaying := false
|}.

(** The JSX renders two distinct [<video ref={videoRef}>] elements: the
    player of the chosen file (lines 358-367) and the webcam view
    (lines 369-371). *)
Inductive VideoSlot : Type := FileVideo | WebcamVideo.

Definition slot_eqb (a b : VideoSlot) : bool :=
  match a, b with
  | FileVideo, FileVideo | WebcamVideo, WebcamVideo => true
  | _, _ => false
  end.

(** A mounted video element.  [srcObject] names a stream of the [streams]
    store. *)
Record VideoEl : Type := {
  slot : VideoSlot;
  paused : bool;
  srcObject : option nat;
  src : option string
}.

(** The callbacks given to [setInterval]: by [startFrameCapture]
    (lines 224-228) and by the two branches of the sampling effect
    (lines 236-238 and 240-244). *)
Inductive TimerCallback : Type :=
| PlayTimer
| WebcamEffectTimer
| VideoEffectTimer.

Record Timer : Type := {
  timerId : nat;
  callback : TimerCallback
}.

Record World : Type := {
  app : AppState;
  (** [videoRef.current] *)
  videoRef : option VideoEl;
  (** every camera stream acquired so far, as the liveness of its tracks *)
  streams : list (list bool);
  (** the intervals that are active *)
  timers : list Timer;
  nextTimerId : nat;
  (** [interval] of the sampling effect that ran last *)
  effectInterval : option nat;
  (** the dependency values [mode, streaming, isPlaying] it ran with *)
  effectDeps : Mode * bool * bool;
  (** a state setter was called since the last render *)
  renderScheduled : bool;
  (** requests posted and not yet settled, oldest first *)
  inflight : list (Frame * float);
  (** number of requests posted so far *)
  sent : nat;
  (** images created by [drawOverlay] whose [onload] has not fired *)
  pendingImages : list (SafeData * Frame);
  canvas : Canvas;
  alerts : list string
}.

Definition initial_world : World := {|
  app := initial_app; videoRef := None; streams := []; timers := [];
  nextTimerId := 0; effectInterval := None;
  effectDeps := (Upload, false, false); renderScheduled := false;
  inflight := []; sent := 0; pendingImages := []; canvas := initial_canvas;
  alerts := []
|}.

(** *** Field updates *)

Definition set_mode (v : Mode) (a : AppState) : AppState :=
  {| mode := v; videoFile := videoFile a; videoUrl := videoUrl a;
     result := result a; streaming := streaming a; loading := loading a;
     analysisHistory := analysisHistory a; isPlaying := isPlaying a |}.

Definition set_videoFile (v : option File) (a : AppState) : AppState :=
  {| mode := mode a; videoFile := v; videoUrl := videoUrl a;
     result := result a; streaming := streaming a; loading := loading a;
     analysisHistory := analysisHistory a; isPlaying := isPlaying a |}.

Definition set_videoUrl (v : option string) (a : AppState) : AppState :=
  {| mode := mode a; videoFile := videoFile a; videoUrl := v;
     result := result a; streaming := streaming a; loading := loading a;
     analysisHistory := analysisHistory a; isPlaying := isPlaying a |}.

Definition set_result (v : option SafeData) (a : AppState) : AppState :=
  {| mode := mode a; videoFile := videoFile a; videoUrl := videoUrl a;
     result := v; streaming := streaming a; loading := loading a;
     analysisHistory := analysisHistory a; isPlaying := isPlaying a |}.

Definition set_streaming (v : bool) (a : AppState) : AppState :=
  {| mode := mode a; videoFile := videoFile a; videoUrl := videoUrl a;
     result := result a; streaming := v; loading := loading a;
     analysisHistory := analysisHistory a; isPlaying := isPlaying a |}.

Definition set_loading (v : bool) (a : AppState) : AppState :=
  {| mode := mode a; videoFile := videoFile a; videoUrl := videoUrl a;
     result := result a; streaming := streaming a; loading := v;
     analysisHistory := analysisHistory a; isPlaying := isPlaying a |}.

Definition set_analysisHistory (f : list SafeData -> list SafeData)
  (a : AppState) : AppState :=
  {| mode := mode a; videoFile := videoFile a; videoUrl := videoUrl a;
     result := result a; streaming := streaming a; loading := loading a;
     analysisHistory := f (analysisHistory a); isPlaying := isPlaying a |}.

Definition set_isPlaying (v : bool) (a : AppState) : AppState :=
  {| mode := mode a; videoFile := videoFile a; videoUrl := videoUrl a;
     result := result a; streaming := streaming a; loading := loading a;
     analysisHistory := analysisHistory a; isPlaying := v |}.

(** A call of a state setter: the cell is updated and a render is
    scheduled. *)
Definition with_app (f : AppState -> AppState) (w : World) : World :=
  {| app := f (app w); videoRef := videoRef w; streams := streams w;
     timers := timers w; nextTimerId := nextTimerId w;
     effectInterval := effectInterval w; effectDeps := effectDeps w;
     renderScheduled := true; inflight := inflight w; sent := sent w;
     pendingImages := pendingImages w; canvas := canvas w;
     alerts := alerts w |}.

Definition with_videoRef (v : option VideoEl) (w : World) : World :=
  {| app := app w; videoRef := v; streams := streams w;
     timers := timers w; nextTimerId := nextTimerId w;
     effectInterval := effectInterval w; effectDeps := effectDeps w;
     renderScheduled := renderScheduled w; inflight := inflight w;
     sent := sent w; pendingImages := pendingImages w; canvas := canvas w;
     alerts := alerts w |}.

Definition with_streams (v : list (list bool)) (w : World) : World :=
  {| app := app w; videoRef := videoRef w; streams := v;
     timers := timers w; nextTimerId := nextTimerId w;
     effectInterval := effectInterval w; effectDeps := effectDeps w;
     renderScheduled := renderScheduled w; inflight := inflight w;
     sent := sent w; pendingImages := pendingImages w; canvas := canvas w;
     alerts := alerts w |}.

Definition with_timers (v : list Timer) (n : nat) (w : World) : World :=
  {| app := app w; videoRef := videoRef w; streams := streams w;
     timers := v; nextTimerId := n;
     effectInterval := effectInterval w; effectDeps := effectDeps w;
     renderScheduled := renderScheduled w; inflight := inflight w;
     sent := sent w; pendingImages := pendingImages w; canvas := canvas w;
     alerts := alerts w |}.

Definition with_effect (i : option nat) (d : Mode * bool * bool) (w : World)
  : World :=
  {| app := app w; videoRef := videoRef w; streams := streams w;
     timers := timers w; nextTimerId := nextTimerId w;
     effectInterval := i; effectDeps := d;
     renderScheduled := renderScheduled w; inflight := inflight w;
     sent := sent w; pendingImages := pendingImages w; canvas := canvas w;
     alerts := alerts w |}.

Definition rendered (w : World) : World :=
  {| app := app w; videoRef := videoRef w; streams := streams w;
     timers := timers w; nextTimerId := nextTimerId w;
     effectInterval := effectInterval w; effectDeps := effectDeps w;
     renderScheduled := false; inflight := inflight w;
     sent := sent w; pendingImages := pendingImages w; canvas := canvas w;
     alerts := alerts w |}.

Definition with_inflight (v : list (Frame * float)) (n : nat) (w : World)
  : World :=
  {| app := app w; videoRef := videoRef w; streams := streams w;
     timers := timers w; nextTimerId := nextTimerId w;
     effectInterval := effectInterval w; effectDeps := effectDeps w;
     renderScheduled := renderScheduled w; inflight := v;
     sent := n; pendingImages := pendingImages w; canvas := canvas w;
     alerts := alerts w |}.

Definition with_overlay (p : list (SafeData * Frame)) (c : Canvas) (w : World)
  : World :=
  {| app := app w; videoRef := videoRef w; streams := streams w;
     timers := timers w; nextTimerId := nextTimerId w;
     effectInterval := effectInterval w; effectDeps := effectDeps w;
     renderScheduled := renderScheduled w; inflight := inflight w;
     sent := sent w; pendingImages := p; canvas := c;
     alerts := alerts w |}.

Definition with_alerts (v : list string) (w : World) : World :=
  {| app := app w; videoRef := videoRef w; streams := streams w;
     timers := timers w; nextTimerId := nextTimerId w;
     effectInterval := effectInterval w; effectDeps := effectDeps w;
     renderScheduled := renderScheduled w; inflight := inflight w;
     sent := sent w; pendingImages := pendingImages w; canvas := canvas w;
     alerts := v |}.

(** ** A monad for handler bodies: state and exceptions *)

Inductive Completion (A : Type) : Type :=
| Normal (a : A)
| Thrown (e : string).

Arguments Normal {A} a.
Arguments Thrown {A} e.

Definition Js (A : Type) : Type := World -> Completion A * World.

Definition ret {A : Type} (a : A) : Js A := fun w => (Normal a, w).

Definition bind {A B : Type} (c : Js A) (k : A -> Js B) : Js B :=
  fun w =>
    match c w with
    | (Normal a, w') => k a w'
    | (Thrown e, w') => (Thrown e, w')
    end.

Definition throw {A : Type} (e : string) : Js A := fun w => (Thrown e, w).

(** [try { c } catch (err) { h err }] *)
Definition try_catch {A : Type} (c : Js A) (h : string -> Js A) : Js A :=
  fun w =>
    match c w with
    | (Normal a, w') => (Normal a, w')
    | (Thrown e, w') => h e w'
    end.

Definition get : Js World := fun w => (Normal w, w).

Definition modify (f : World -> World) : Js unit := fun w => (Normal tt, f w).

(** The state a computation leaves, whether it returned or threw. *)
Definition exec {A : Type} (c : Js A) (w : World) : World := snd (c w).

Notation "x <- c1 ;; c2" := (bind c1 (fun x => c2))
  (at level 61, c1 at next level, right associativity).
Notation "c1 ;; c2" := (bind c1 (fun _ => c2))
  (at level 61, right associativity).

(** ** Browser primitives *)

Definition setMode (v : Mode) : Js unit := modify (with_app (set_mode v)).
Definition setVideoFile (v : option File) : Js unit :=
  modify (with_app (set_videoFile v)).
Definition setVideoUrl (v : option string) : Js unit :=
  modify (with_app (set_videoUrl v)).
Definition setResult (v : option SafeData) : Js unit :=
  modify (with_app (set_result v)).
Definition setStreaming (v : bool) : Js unit :=
  modify (with_app (set_streaming v)).
Definition setLoading (v : bool) : Js unit :=
  modify (with_app (set_loading v)).
Definition setAnalysisHistory (f : list SafeData -> list SafeData) : Js unit :=
  modify (with_app (set_analysisHistory f)).
Definition setIsPlaying (v : bool) : Js unit :=
  modify (with_app (set_isPlaying v)).

Definition alert (msg : string) : Js unit :=
  modify (fun w => with_alerts (alerts w ++ [msg]) w).

(** [videoRef.current.p]: a TypeError when no video element is mounted. *)
Definition videoRef_current : Js VideoEl :=
  w <- get ;;
  match videoRef w with
  | Some el => ret el
  | None => throw "TypeError"
  end.

Definition set_current (el : VideoEl) : Js unit :=
  modify (with_videoRef (Some el)).

(** What [navigator.mediaDevices.getUserMedia] settles with: a new stream
    of live tracks, or a rejection (NotAllowedError, NotFoundError, ...). *)
Inductive MediaResult : Type :=
| Granted (ntracks : nat)
| Refused (err : string).

Definition getUserMedia (r : MediaResult) : Js nat :=
  match r with
  | Granted n =>
      w <- get ;;
      modify (with_streams (streams w ++ [repeat true n])) ;;
      ret (List.length (streams w))
  | Refused err => throw err
  end.

Fixpoint update_nth {A : Type} (n : nat) (f : A -> A) (l : list A) : list A :=
  match l, n with
  | [], _ => []
  | x :: rest, O => f x :: rest
  | x :: rest, S n' => x :: update_nth n' f rest
  end.

(** [stream.getTracks().forEach((track) => track.stop())] *)
Definition stop_tracks (stream : nat) : Js unit :=
  modify (fun w =>
    with_streams (update_nth stream (map (fun _ => false)) (streams w)) w).

(** Tracks that are still live, over all streams acquired. *)
Definition live_tracks (w : World) : nat :=
  List.length (filter (fun live => live) (List.concat (streams w))).

Definition add_interval (cb : TimerCallback) (w : World) : World :=
  with_timers (timers w ++ [{| timerId := nextTimerId w; callback := cb |}])
              (S (nextTimerId w)) w.

Definition setInterval (cb : TimerCallback) : Js nat :=
  w <- get ;;
  modify (add_interval cb) ;;
  ret (nextTimerId w).

(** [clearInterval(id)]; [clearInterval(undefined)] does nothing. *)
Definition clearInterval (id : option nat) (w : World) : World :=
  match id with
  | Some i =>
      with_timers (filter (fun t => negb (Nat.eqb (timerId t) i)) (timers w))
                  (nextTimerId w) w
  | None => w
  end.

(** What the server call settles with: a 2xx response carrying
    [response.data], or a rejection (network error, timeout, non-2xx
    status). *)
Inductive HttpOutcome : Type :=
| Fulfilled (data : JsVal)
| Rejected.

Definition await_post (o : HttpOutcome) : Js JsVal :=
  match o with
  | Fulfilled data => ret data
  | Rejected => throw "AxiosError"
  end.

(** ** The handlers of [App] *)

(** [drawOverlay] (lines 155-206): creates an image whose [onload] paints
    the canvas later. *)
Definition drawOverlay (data : SafeData) (src : Frame) : Js unit :=
  modify (fun w =>
    with_overlay (pendingImages w ++ [(data, src)]) (canvas w) w).

(** [sendFrame] up to its [await] (lines 116-123). *)
Definition sendFrame_post (imageBase64 : Frame) (ts : float) : Js unit :=
  setLoading true ;;
  modify (fun w =>
    with_inflight (inflight w ++ [(imageBase64, ts)]) (S (sent w)) w).

(** [sendFrame] from the point its [await] settles (lines 120-148). *)
Definition sendFrame_resume (imageBase64 : Frame) (ts : float)
  (o : HttpOutcome) : Js unit :=
  try_catch
    (data <- await_post o ;;
     let safeData := make_safeData data ts in
     setResult (Some safeData) ;;
     setAnalysisHistory (push_history safeData) ;;
     drawOverlay safeData imageBase64)
    (fun _ => ret tt) ;;
  setLoading false.

(** [sendFrame] run without anything interleaved at its [await]. *)
Definition sendFrame (imageBase64 : Frame) (ts : float) (o : HttpOutcome)
  : Js unit :=
  setLoading true ;;
  sendFrame_resume imageBase64 ts o.

(** [captureAndAnalyzeFrame] (lines 74-95); [shot] and [now] are what the
    video element shows at that instant and its [currentTime]. *)
Definition captureAndAnalyzeFrame (shot : Frame) (now : float) : Js unit :=
  w <- get ;;
  match videoRef w with
  | None => ret tt
  | Some _ => sendFrame_post shot now
  end.

(** [handleImageChange] (lines 101-110), at [reader.onloadend]. *)
Definition handleImageChange (file : option Frame) : Js unit :=
  match file with
  | None => ret tt
  | Some reader_result => sendFrame_post reader_result 0
  end.

(** [handleVideoChange] (lines 24-43); [url] is what
    [URL.createObjectURL] returns.  Assigning [src] makes the browser load
    the new resource, which also pauses the element; [paused] is left as it
    was here, and nothing proved below depends on it after this handler. *)
Definition handleVideoChange (file : option File) (url : string) : Js unit :=
  match file with
  | None => ret tt
  | Some f =>
      if negb (String.prefix "video/" (fileType f))
      then alert "Please select a valid video file"
      else
        setVideoFile (Some f) ;;
        setVideoUrl (Some url) ;;
        setResult None ;;
        setAnalysisHistory (fun _ => []) ;;
        w <- get ;;
        match videoRef w with
        | Some el =>
            set_current {| slot := slot el; paused := paused el;
                           srcObject := srcObject el; src := Some url |}
        | None => ret tt
        end
  end.

(** [startWebcam] (lines 49-59), from the point [getUserMedia] settles. *)
Definition startWebcam (r : MediaResult) : Js unit :=
  try_catch
    (stream <- getUserMedia r ;;
     el <- videoRef_current ;;
     set_current {| slot := slot el; paused := paused el;
                    srcObject := Some stream; src := src el |} ;;
     el <- videoRef_current ;;
     set_current {| slot := slot el; paused := false;
                    srcObject := srcObject el; src := src el |} ;;
     setStreaming true ;;
     setMode Webcam)
    (fun _ => alert "Cannot access webcam").

(** [stopWebcam] (lines 61-68). *)
Definition stopWebcam : Js unit :=
  w <- get ;;
  match videoRef w with
  | Some el =>
      match srcObject el with
      | Some stream => stop_tracks stream
      | None => ret tt
      end
  | None => ret tt
  end ;;
  setStreaming false ;;
  setMode Upload.

(** [startFrameCapture] (lines 221-231).  The value returned stands for the
    closure [() => clearInterval(interval)]. *)
Definition startFrameCapture : Js (option nat) :=
  w <- get ;;
  match videoRef w with
  | None => ret None
  | Some _ =>
      interval <- setInterval PlayTimer ;;
      ret (Some interval)
  end.

(** [handleVideoPlay] (lines 212-215): the closure returned by
    [startFrameCapture] is dropped. *)
Definition handleVideoPlay : Js unit :=
  setIsPlaying true ;;
  _ <- startFrameCapture ;;
  ret tt.

(** [handleVideoPause] (lines 217-219). *)
Definition handleVideoPause : Js unit := setIsPlaying false.

(** [resetVideo] (lines 253-265).  Revoking the object URL and emptying the
    file input change nothing that is modelled. *)
Definition resetVideo : Js unit :=
  setVideoFile None ;;
  setVideoUrl None ;;
  setResult None ;;
  setAnalysisHistory (fun _ => []) ;;
  setIsPlaying false.

(** The callbacks of the three [setInterval] calls. *)
Definition fire (cb : TimerCallback) (shot : Frame) (now : float) : Js unit :=
  match cb with
  | PlayTimer =>
      w <- get ;;
      match videoRef w with
      | Some el =>
          if negb (paused el) then captureAndAnalyzeFrame shot now else ret tt
      | None => ret tt
      end
  | WebcamEffectTimer => captureAndAnalyzeFrame shot now
  | VideoEffectTimer =>
      el <- videoRef_current ;;
      if negb (paused el) then captureAndAnalyzeFrame shot now else ret tt
  end.

(** One cadence period (1000 ms) elapses: every active interval fires once,
    oldest first.  An exception escaping a callback is reported by the
    browser and stops nothing else. *)
Fixpoint fire_all (ts : list Timer) (shot : Frame) (now : float) (w : World)
  : World :=
  match ts with
  | [] => w
  | t :: rest => fire_all rest shot now (exec (fire (callback t) shot now) w)
  end.

(** ** Rendering and the sampling effect *)

(** Which video element the JSX renders (lines 358-371). *)
Definition wanted_slot (a : AppState) : option VideoSlot :=
  match mode a, videoUrl a with
  | Webcam, _ => Some WebcamVideo
  | _, Some _ => Some FileVideo
  | _, None => None
  end.

Definition fresh_video (s : VideoSlot) (a : AppState) : VideoEl :=
  {| slot := s; paused := true; srcObject := None;
     src := match s with FileVideo => videoUrl a | WebcamVideo => None end |}.

(** React keeps the DOM node of an element that stays rendered, creates a
    new node for an element that appears, and sets [videoRef.current] to the
    node that is mounted, or to [null] when there is none. *)
Definition mount_video (a : AppState) (cur : option VideoEl)
  : option VideoEl :=
  match wanted_slot a with
  | None => None
  | Some s =>
      match cur with
      | Some el =>
          if slot_eqb (slot el) s
          then Some {| slot := s; paused := paused el;
                       srcObject := srcObject el;
                       src := match s with
                              | FileVideo => videoUrl a
                              | WebcamVideo => src el
                              end |}
          else Some (fresh_video s a)
      | None => Some (fresh_video s a)
      end
  end.

Definition deps_of (a : AppState) : Mode * bool * bool :=
  (mode a, streaming a, isPlaying a).

Definition deps_eqb (x y : Mode * bool * bool) : bool :=
  let '(m1, s1, p1) := x in
  let '(m2, s2, p2) := y in
  mode_eqb m1 m2 && Bool.eqb s1 s2 && Bool.eqb p1 p2.

(** The body of the sampling effect (lines 234-245). *)
Definition sampling_effect (w : World) : World :=
  let a := app w in
  if mode_eqb (mode a) Webcam && streaming a then
    with_effect (Some (nextTimerId w)) (deps_of a)
                (add_interval WebcamEffectTimer w)
  else if mode_eqb (mode a) Video && isPlaying a
          && match videoRef w with Some _ => true | None => false end then
    with_effect (Some (nextTimerId w)) (deps_of a)
                (add_interval VideoEffectTimer w)
  else with_effect None (deps_of a) w.

(** The cleanup it returns (line 246). *)
Definition sampling_cleanup (w : World) : World :=
  clearInterval (effectInterval w) w.

(** A render, when one is scheduled: the video element is reconciled, and
    the effect is cleaned up and run again if a dependency changed.

    Only this part of the render is modelled.  The results panel
    (lines 396-434) puts [result.status], [result.alignment_offset_mm] and
    the same fields of every history item into the page as JSX children;
    React throws on a child that is a plain object and unmounts the page.
    That failure is outside this definition: nothing proved below speaks
    about the page after a render of a record with such a field. *)
Definition commit (w : World) : World :=
  if renderScheduled w then
    let w := rendered (with_videoRef (mount_video (app w) (videoRef w)) w) in
    if deps_eqb (deps_of (app w)) (effectDeps w) then w
    else sampling_effect (sampling_cleanup w)
  else w.

(** ** Events and runs *)

Fixpoint remove_nth {A : Type} (n : nat) (l : list A) : list A :=
  match l, n with
  | [], _ => []
  | _ :: rest, O => rest
  | x :: rest, S n' => x :: remove_nth n' rest
  end.

(** What can happen to the page: clicks and file choices of the user, the
    [play] and [pause] events of the file player, a cadence period elapsing,
    a posted request settling, and an overlay image finishing to load. *)
Inductive Event : Type :=
| ClickUploadImage
| ClickUploadVideo
| ClickUseWebcam (r : MediaResult)
| ClickStopWebcam
| ChooseImage (file : option Frame)
| ChooseVideo (file : option File) (url : string)
| VideoPlays
| VideoPauses
| ClickClearVideo
| Tick (shot : Frame) (now : float)
| Response (i : nat) (o : HttpOutcome)
| ImageLoads (i : nat).

(** The file player starts playing: [paused] becomes false and [onPlay]
    runs. *)
Definition video_plays : Js unit :=
  w <- get ;;
  match videoRef w with
  | Some el =>
      match slot el with
      | FileVideo =>
          set_current {| slot := slot el; paused := false;
                         srcObject := srcObject el; src := src el |} ;;
          handleVideoPlay
      | WebcamVideo => ret tt
      end
  | None => ret tt
  end.

(** The file player is paused: [paused] becomes true and [onPause] runs. *)
Definition video_pauses : Js unit :=
  w <- get ;;
  match videoRef w with
  | Some el =>
      match slot el with
      | FileVideo =>
          set_current {| slot := slot el; paused := true;
                         srcObject := srcObject el; src := src el |} ;;
          handleVideoPause
      | WebcamVideo => ret tt
      end
  | None => ret tt
  end.

(** The [i]-th request in flight settles. *)
Definition settle (i : nat) (o : HttpOutcome) : Js unit :=
  w <- get ;;
  match nth_error (inflight w) i with
  | Some (imageBase64, ts) =>
      modify (with_inflight (remove_nth i (inflight w)) (sent w)) ;;
      sendFrame_resume imageBase64 ts o
  | None => ret tt
  end.

(** The [i]-th pending overlay image fires [onload]. *)
Definition image_loads (i : nat) : Js unit :=
  w <- get ;;
  match nth_error (pendingImages w) i with
  | Some (data, img) =>
      modify (with_overlay (remove_nth i (pendingImages w))
                           (overlay_onload img data (canvas w)))
  | None => ret tt
  end.

Definition handler (e : Event) : Js unit :=
  match e with
  | ClickUploadImage => setMode Upload
  | ClickUploadVideo => setMode Video
  | ClickUseWebcam r => startWebcam r
  | ClickStopWebcam => stopWebcam
  | ChooseImage file => handleImageChange file
  | ChooseVideo file url => handleVideoChange file url
  | VideoPlays => video_plays
  | VideoPauses => video_pauses
  | ClickClearVideo => resetVideo
  | Tick shot now => modify (fun w => fire_all (timers w) shot now w)
  | Response i o => settle i o
  | ImageLoads i => image_loads i
  end.

(** An event is handled to completion and React then renders. *)
Definition step (w : World) (e : Event) : World :=
  commit (exec (handler e) w).

Definition run (w : World) (es : list Event) : World :=
  fold_left step es w.

(** Whether the page offers the event: the control is rendered
    (lines 290-440), the element exists, the request or image is pending. *)
Definition enabled (w : World) (e : Event) : bool :=
  match e with
  | ClickUploadImage | ClickUploadVideo | ClickUseWebcam _ => true
  | ClickStopWebcam => mode_eqb (mode (app w)) Webcam && streaming (app w)
  | ChooseImage _ => mode_eqb (mode (app w)) Upload
  | ChooseVideo _ _ => mode_eqb (mode (app w)) Video
  | VideoPlays =>
      match videoRef w with
      | Some el => slot_eqb (slot el) FileVideo && paused el
      | None => false
      end
  | VideoPauses =>
      match videoRef w with
      | Some el => slot_eqb (slot el) FileVideo && negb (paused el)
      | None => false
      end
  | ClickClearVideo =>
      match videoFile (app w) with Some _ => true | None => false end
  | Tick _ _ => true
  | Response i _ => Nat.ltb i (List.length (inflight w))
  | ImageLoads i => Nat.ltb i (List.length (pendingImages w))
  end.

(** Every event of the run is offered in the state it occurs in. *)
Fixpoint feasible (w : World) (es : list Event) : bool :=
  match es with
  | [] => true
  | e :: rest => enabled w e && feasible (step w e) rest
  end.

(** [k] cadence periods elapse. *)
Definition ticks (k : nat) (shot : Frame) (now : float) : list Event :=
  repeat (Tick shot now) k.

(** The state after [sendFrame] ran uninterrupted and React rendered. *)
Definition after_sendFrame (w : World) (tick : Frame * float * HttpOutcome)
  : World :=
  let '(imageBase64, ts, o) := tick in
  commit (exec (sendFrame imageBase64 ts o) w).

(** A series of submissions that all succeed, with the record each one
    produces. *)
Definition after_successes (w : World) (ticks : list (Frame * float * JsVal))
  : World :=
  fold_left
    (fun w '(imageBase64, ts, data) =>
       after_sendFrame w (imageBase64, ts, Fulfilled data))
    ticks w.

Definition record_of (tick : Frame * float * JsVal) : SafeData :=
  let '(_, ts, data) := tick in make_safeData data ts.

(** The labels the analyzer is documented to return. *)
Definition known_label (st : JsVal) : bool :=
  strict_eq_str st "OK" || strict_eq_str st "WARNING"
  || strict_eq_str st "CRITICAL".

(** The page shows the file player, playing, outside Video mode, the
    sampling effect holds no interval, and the only interval left is the one
    [startFrameCapture] created. *)
Definition sampler_left_behind (w : World) : Prop :=
  (exists id, timers w = [{| timerId := id; callback := PlayTimer |}])
  /\ (exists el, videoRef w = Some el /\ slot el = FileVideo
                 /\ paused el = false)
  /\ mode (app w) = Upload
  /\ (exists url, videoUrl (app w) = Some url)
  /\ effectInterval w = None
  /\ effectDeps w = deps_of (app w).

(** ** Auxiliary notions for the properties of the main variant *)

(** The interval was created by the sampling effect, not by
    [startFrameCapture]. *)
Definition is_effect_timer (t : Timer) : bool :=
  match callback t with
  | PlayTimer => false
  | WebcamEffectTimer | VideoEffectTimer => true
  end.

Definition effect_timers (w : World) : list Timer :=
  filter is_effect_timer (timers w).

Definition play_timers (w : World) : list Timer :=
  filter (fun t => negb (is_effect_timer t)) (timers w).

(** The condition under which the sampling effect creates an interval
    (lines 235 and 239, without the test of [videoRef.current]). *)
Definition live (a : AppState) : bool :=
  (mode_eqb (mode a) Webcam && streaming a)
  || (mode_eqb (mode a) Video && isPlaying a).

Definition is_webcam_timer (t : Timer) : bool :=
  match callback t with
  | WebcamEffectTimer => true
  | _ => false
  end.

Definition is_object (v : JsVal) : bool :=
  match v with
  | JObj _ => true
  | _ => false
  end.

(** The record in which every field took its default. *)
Definition default_record (ts : float) : SafeData :=
  {| alignment_offset_pixels := JNum 0; alignment_offset_mm := JNum 0;
     status := JStr "UNKNOWN"; timestamp := ts |}.

(** The streams an event acquires: [getUserMedia] is the only source. *)
Definition acquired (e : Event) : list (list bool) :=
  match e with
  | ClickUseWebcam (Granted n) => [repeat true n]
  | _ => []
  end.

(** The sampling effect is in step with the state: nothing waits to be
    rendered, the effect last ran with the current dependency values, and the
    intervals it created that are still active are exactly the one it holds,
    which it holds only while the live condition is true. *)
Definition effect_in_step (w : World) : Prop :=
  renderScheduled w = false
  /\ effectDeps w = deps_of (app w)
  /\ match effectInterval w with
     | Some i =>
         live (app w) = true
         /\ exists cb, effect_timers w = [{| timerId := i; callback := cb |}]
     | None => effect_timers w = []
     end.

(** The interval an event makes [startFrameCapture] create: one, when the
    file player fires [play]. *)
Definition started_by (w : World) (e : Event) : list Timer :=
  match e with
  | VideoPlays =>
      match videoRef w with
      | Some el =>
          match slot el with
          | FileVideo => [{| timerId := nextTimerId w; callback := PlayTimer |}]
          | WebcamVideo => []
          end
      | None => []
      end
  | _ => []
  end.

(** Interval identifiers are handed out once: the active ones are distinct
    and below the next identifier. *)
Definition ids_fresh (w : World) : Prop :=
  NoDup (map timerId (timers w))
  /\ forall t, In t (timers w) -> timerId t < nextTimerId w.

(** ** The webcam-and-upload variant of [App] (lines 627-886)

    Its state cells [mode], [result], [streaming] and [loading] are the
    cells of the same names; [mode] is only ever "upload" or "webcam".  The
    single [<video ref={videoRef}>] is rendered exactly in webcam mode
    (lines 821-824), so it is mounted before [startWebcam] can be clicked. *)

(** [startWebcam] of the variant (lines 646-655): no [setMode]. *)
Definition startWebcam_v2 (r : MediaResult) : Js unit :=
  try_catch
    (stream <- getUserMedia r ;;
     el <- videoRef_current ;;
     set_current {| slot := slot el; paused := paused el;
                    srcObject := Some stream; src := src el |} ;;
     el <- videoRef_current ;;
     set_current {| slot := slot el; paused := false;
                    srcObject := srcObject el; src := src el |} ;;
     setStreaming true)
    (fun _ => alert "Cannot access webcam").

(** [stopWebcam] of the variant (lines 657-663): no [setMode]. *)
Definition stopWebcam_v2 : Js unit :=
  w <- get ;;
  match videoRef w with
  | Some el =>
      match srcObject el with
      | Some stream => stop_tracks stream
      | None => ret tt
      end
  | None => ret tt
  end ;;
  setStreaming false.

Definition mount_video_v2 (a : AppState) (cur : option VideoEl)
  : option VideoEl :=
  match mode a with
  | Webcam =>
      match cur with
      | Some el => Some el
      | None => Some {| slot := WebcamVideo; paused := true;
                        srcObject := None; src := None |}
      end
  | _ => None
  end.

(** The sampling effect of the variant (lines 679-687): one branch, and the
    dependencies [mode, streaming].  Its interval calls [captureWebcamFrame]
    every 500 ms; it is recorded with the callback [WebcamEffectTimer]. *)
Definition sampling_effect_v2 (w : World) : World :=
  let a := app w in
  if mode_eqb (mode a) Webcam && streaming a then
    with_effect (Some (nextTimerId w)) (deps_of a)
                (add_interval WebcamEffectTimer w)
  else with_effect None (deps_of a) w.

Definition deps_eqb_v2 (x y : Mode * bool * bool) : bool :=
  let '(m1, s1, _) := x in
  let '(m2, s2, _) := y in
  mode_eqb m1 m2 && Bool.eqb s1 s2.

Definition commit_v2 (w : World) : World :=
  if renderScheduled w then
    let w := rendered (with_videoRef (mount_video_v2 (app w) (videoRef w)) w) in
    if deps_eqb_v2 (deps_of (app w)) (effectDeps w) then w
    else sampling_effect_v2 (sampling_cleanup w)
  else w.

(** The controls of the variant (lines 799-834). *)
Inductive EventV2 : Type :=
| V2ClickUploadImage
| V2ClickUseWebcam
| V2ClickStartWebcam (r : MediaResult)
| V2ClickStopWebcam.

Definition handler_v2 (e : EventV2) : Js unit :=
  match e with
  | V2ClickUploadImage => setMode Upload
  | V2ClickUseWebcam => setMode Webcam
  | V2ClickStartWebcam r => startWebcam_v2 r
  | V2ClickStopWebcam => stopWebcam_v2
  end.

Definition step_v2 (w : World) (e : EventV2) : World :=
  commit_v2 (exec (handler_v2 e) w).

Definition run_v2 (w : World) (es : list EventV2) : World :=
  fold_left step_v2 es w.

(** The start and stop buttons are rendered in webcam mode, one or the
    other according to [streaming] (lines 821-834). *)
Definition enabled_v2 (w : World) (e : EventV2) : bool :=
  match e with
  | V2ClickUploadImage | V2ClickUseWebcam => true
  | V2ClickStartWebcam _ =>
      mode_eqb (mode (app w)) Webcam && negb (streaming (app w))
  | V2ClickStopWebcam => mode_eqb (mode (app w)) Webcam && streaming (app w)
  end.

Fixpoint feasible_v2 (w : World) (es : list EventV2) : bool :=
  match es with
  | [] => true
  | e :: rest => enabled_v2 w e && feasible_v2 (step_v2 w e) rest
  end.

(** ** [AlignmentUpload] (lines 891-969) *)

(** [v.k] for a key that no built-in prototype defines: a TypeError on
    [null] and [undefined]. *)
Definition get_prop (v : JsVal) (k : string) : Completion JsVal :=
  if is_nullish v then Thrown "TypeError" else Normal (opt_get v k).

(** The body of [img.onload] in its [drawOverlay] (lines 923-945), with
    what is on the canvas when it returns or throws. *)
Definition upload_overlay_onload (img : Frame) (data : JsVal) (canvas : Canvas)
  : Completion unit * Canvas :=
  let canvas := set_canvas_width (frameWidth img) canvas in
  let canvas := set_canvas_height (frameHeight img) canvas in
  let canvas := draw [DrawImage img 0 0] canvas in
  let centerX := (num_of_Z (frameWidth img) / 2)%float in
  match get_prop data "offset_pixels" with
  | Thrown e => (Thrown e, canvas)
  | Normal offset_pixels =>
      let detectedX := js_add (JNum centerX) offset_pixels in
      let height := JNum (num_of_Z (frameHeight img)) in
      (Normal tt,
       draw [ SetStrokeStyle "green";
              SetLineWidth 3;
              BeginPath;
              MoveTo (JNum centerX) (JNum 0);
              LineTo (JNum centerX) height;
              Stroke;
              SetStrokeStyle "red";
              BeginPath;
              MoveTo detectedX (JNum 0);
              LineTo detectedX height;
              Stroke ] canvas)
  end.

(** * Properties *)

(** ** Rendering never touches the React state or the overlay *)

Lemma clearInterval_app (i : option nat) (w : World) :
  app (clearInterval i w) = app w.
Proof. destruct i; reflexivity. Qed.

Lemma sampling_effect_app (w : World) : app (sampling_effect w) = app w.
Proof.
  unfold sampling_effect.
  destruct (mode_eqb (mode (app w)) Webcam && streaming (app w)); [reflexivity|].
  destruct (mode_eqb (mode (app w)) Video && isPlaying (app w)
            && match videoRef w with Some _ => true | None => false end);
    reflexivity.
Qed.

Lemma commit_app (w : World) : app (commit w) = app w.
Proof.
  unfold commit. destruct (renderScheduled w); [|reflexivity].
  cbv zeta.
  match goal with |- context [if ?b then _ else _] => destruct b end;
    [reflexivity|].
  rewrite sampling_effect_app. unfold sampling_cleanup.
  now rewrite clearInterval_app.
Qed.

Lemma clearInterval_overlay (i : option nat) (w : World) :
  canvas (clearInterval i w) = canvas w
  /\ pendingImages (clearInterval i w) = pendingImages w.
Proof. destruct i; split; reflexivity. Qed.

Lemma sampling_effect_overlay (w : World) :
  canvas (sampling_effect w) = canvas w
  /\ pendingImages (sampling_effect w) = pendingImages w.
Proof.
  unfold sampling_effect.
  destruct (mode_eqb (mode (app w)) Webcam && streaming (app w));
    [split; reflexivity|].
  destruct (mode_eqb (mode (app w)) Video && isPlaying (app w)
            && match videoRef w with Some _ => true | None => false end);
    split; reflexivity.
Qed.

Lemma commit_overlay (w : World) :
  canvas (commit w) = canvas w /\ pendingImages (commit w) = pendingImages w.
Proof.
  unfold commit. destruct (renderScheduled w); [|split; reflexivity].
  cbv zeta.
  match goal with |- context [if ?b then _ else _] => destruct b end;
    [split; reflexivity|].
  destruct (sampling_effect_overlay
              (sampling_cleanup
                 (rendered (with_videoRef (mount_video (app w) (videoRef w)) w))))
    as [-> ->].
  unfold sampling_cleanup.
  match goal with
  | |- context [clearInterval ?i ?x] =>
      destruct (clearInterval_overlay i x) as [-> ->]
  end.
  split; reflexivity.
Qed.

(** ** What [sendFrame] does to the React state *)

Lemma sendFrame_resume_fulfilled (w : World) (f : Frame) (ts : float)
  (data : JsVal) :
  let r := make_safeData data ts in
  sendFrame_resume f ts (Fulfilled data) w
  = (Normal tt,
     with_app (set_loading false)
       (with_overlay (pendingImages w ++ [(r, f)]) (canvas w)
          (with_app (set_analysisHistory (push_history r))
             (with_app (set_result (Some r)) w)))).
Proof. reflexivity. Qed.

Lemma sendFrame_resume_rejected (w : World) (f : Frame) (ts : float) :
  sendFrame_resume f ts Rejected w
  = (Normal tt, with_app (set_loading false) w).
Proof. reflexivity. Qed.

Lemma after_sendFrame_fulfilled_app (w : World) (f : Frame) (ts : float)
  (data : JsVal) :
  let r := make_safeData data ts in
  app (after_sendFrame w (f, ts, Fulfilled data))
  = set_loading false
      (set_analysisHistory (push_history r) (set_result (Some r)
         (set_loading true (app w)))).
Proof. cbv zeta. unfold after_sendFrame. now rewrite commit_app. Qed.

Lemma after_successes_cons (w : World) (f : Frame) (ts : float)
  (data : JsVal) (rest : list (Frame * float * JsVal)) :
  after_successes w ((f, ts, data) :: rest)
  = after_successes (after_sendFrame w (f, ts, Fulfilled data)) rest.
Proof. reflexivity. Qed.

Lemma after_successes_history (ticks : list (Frame * float * JsVal)) :
  forall w : World,
    analysisHistory (app (after_successes w ticks))
    = fold_left (fun acc r => push_history r acc) (map record_of ticks)
        (analysisHistory (app w)).
Proof.
  induction ticks as [|[[f ts] data] rest IH]; intros w; [reflexivity|].
  rewrite after_successes_cons, IH, after_sendFrame_fulfilled_app.
  reflexivity.
Qed.

(** ** The bounded history *)

Lemma push_history_length (r : SafeData) (prev : list SafeData) :
  List.length (push_history r prev) <= 20.
Proof. unfold push_history, slice0. apply firstn_le_length. Qed.

Lemma slice0_cons_slice0 {A : Type} (n : nat) (x : A) (l : list A) :
  slice0 n (x :: slice0 n l) = slice0 n (x :: l).
Proof.
  unfold slice0. destruct n as [|n]; [reflexivity|].
  rewrite !firstn_cons. f_equal. rewrite firstn_firstn. f_equal. lia.
Qed.

Lemma push_all_slice0 (rs : list SafeData) :
  forall l : list SafeData,
    fold_left (fun acc r => push_history r acc) rs (slice0 20 l)
    = slice0 20 (rev rs ++ l).
Proof.
  induction rs as [|r rs IH]; intros l; [reflexivity|].
  cbn [fold_left rev]. unfold push_history at 2.
  rewrite slice0_cons_slice0, IH, <- app_assoc. reflexivity.
Qed.

Lemma push_all_nonempty (r : SafeData) (rs prev : list SafeData) :
  fold_left (fun acc r => push_history r acc) (r :: rs) prev
  = slice0 20 (rev (r :: rs) ++ prev).
Proof.
  cbn [fold_left rev]. unfold push_history at 2.
  rewrite push_all_slice0, <- app_assoc. reflexivity.
Qed.

Lemma slice0_app_long {A : Type} (n : nat) (l1 l2 : list A) :
  n <= List.length l1 -> slice0 n (l1 ++ l2) = slice0 n l1.
Proof.
  intros H. unfold slice0. rewrite firstn_app.
  replace (n - List.length l1) with 0 by lia.
  cbn [firstn]. apply app_nil_r.
Qed.

(** C2: more than twenty successful submissions leave exactly the twenty
    newest records in the history, newest first; every single push prepends
    the new record, truncates to twenty, and so never exceeds twenty. *)
Theorem C2_history_keeps_twenty_newest :
  forall (w : World) (ticks : list (Frame * float * JsVal)),
    20 < List.length ticks ->
    let h := analysisHistory (app (after_successes w ticks)) in
    List.length h = 20
    /\ h = firstn 20 (rev (map record_of ticks))
    /\ (forall (w0 : World) (f : Frame) (ts : float) (data : JsVal),
          let h1 := analysisHistory
                      (app (after_sendFrame w0 (f, ts, Fulfilled data))) in
          h1 = firstn 20 (make_safeData data ts :: analysisHistory (app w0))
          /\ List.length h1 <= 20).
Proof.
  intros w ticks Hlen h.
  assert (Hh : h = slice0 20 (rev (map record_of ticks))).
  { subst h. rewrite after_successes_history.
    destruct ticks as [|t rest]; [cbn in Hlen; lia|].
    cbn [map]. rewrite push_all_nonempty.
    apply slice0_app_long.
    rewrite length_rev. cbn [List.length]. rewrite length_map.
    cbn [List.length] in Hlen. lia. }
  split; [|split].
  - rewrite Hh. unfold slice0. rewrite length_firstn, length_rev, length_map.
    lia.
  - exact Hh.
  - intros w0 f ts data h1. subst h1.
    rewrite after_sendFrame_fulfilled_app. cbn.
    split; [reflexivity|].
    apply (push_history_length (make_safeData data ts)
             (analysisHistory (app w0))).
Qed.

(** ** Failed submissions *)

Lemma settle_rejected (w : World) (i : nat) :
  let w' := exec (settle i Rejected) w in
  result (app w') = result (app w)
  /\ analysisHistory (app w') = analysisHistory (app w)
  /\ canvas w' = canvas w
  /\ pendingImages w' = pendingImages w.
Proof.
  cbv zeta. unfold exec, settle, bind, get.
  destruct (nth_error (inflight w) i) as [[f ts]|]; cbn; repeat split.
Qed.

(** C1: a submission whose remote call is rejected (network error, timeout,
    non-2xx status) pushes nothing onto the history and leaves the current
    result, the canvas and the images waiting to be painted as they were;
    after a submission that succeeds with record [r] and one that fails, the
    result and the newest history entry are [r]. *)
Theorem C1_failed_submission_changes_nothing :
  (forall (w : World) (i : nat),
      let w' := step w (Response i Rejected) in
      result (app w') = result (app w)
      /\ analysisHistory (app w') = analysisHistory (app w)
      /\ canvas w' = canvas w
      /\ pendingImages w' = pendingImages w)
  /\ (forall (w : World) (f1 f2 : Frame) (t1 t2 : float) (data : JsVal),
        let r := make_safeData data t1 in
        let w1 := after_sendFrame w (f1, t1, Fulfilled data) in
        let w2 := after_sendFrame w1 (f2, t2, Rejected) in
        result (app w2) = Some r
        /\ hd_error (analysisHistory (app w2)) = Some r
        /\ analysisHistory (app w2) = analysisHistory (app w1)
        /\ canvas w2 = canvas w1
        /\ pendingImages w2 = pendingImages w1).
Proof.
  split.
  - intros w i w'. subst w'. unfold step.
    rewrite commit_app.
    destruct (commit_overlay (exec (handler (Response i Rejected)) w))
      as [-> ->].
    apply settle_rejected.
  - intros w f1 f2 t1 t2 data r w1 w2.
    assert (Happ2 : app w2 = set_loading false (set_loading true (app w1))).
    { subst w2. unfold after_sendFrame. now rewrite commit_app. }
    assert (Happ1 : app w1
                    = set_loading false
                        (set_analysisHistory (push_history r)
                           (set_result (Some r) (set_loading true (app w))))).
    { subst w1. apply after_sendFrame_fulfilled_app. }
    rewrite Happ2, Happ1. cbn [result analysisHistory set_loading
                                 set_analysisHistory set_result].
    repeat split.
    all: subst w2; unfold after_sendFrame.
    all: destruct (commit_overlay (exec (sendFrame f2 t2 Rejected) w1))
           as [Hc Hp]; rewrite ?Hc, ?Hp; reflexivity.
Qed.

(** ** Normalisation of the response *)

(** C3, as amended: the record [sendFrame] builds from a response body has
    0 for an offset field that is missing ([undefined] or [null]) and
    "UNKNOWN" for a status that is missing; a status that is present is the
    status of the record, whether or not it is a label the analyzer
    documents.  So the record is always fully populated: none of its fields
    is [undefined] or [null].  It is the record handed to [setResult].
    Nothing is stated here about rendering the record afterwards. *)
Theorem C3_defaults_fill_missing_fields_only :
  forall (w : World) (f : Frame) (ts : float) (data : JsVal),
    let r := make_safeData data ts in
    let px := opt_get data "alignment_offset_pixels" in
    let mm := opt_get data "alignment_offset_mm" in
    let st := opt_get data "status" in
    alignment_offset_pixels r = (if is_nullish px then JNum 0 else px)
    /\ alignment_offset_mm r = (if is_nullish mm then JNum 0 else mm)
    /\ status r = (if is_nullish st then JStr "UNKNOWN" else st)
    /\ timestamp r = ts
    /\ is_nullish (alignment_offset_pixels r) = false
    /\ is_nullish (alignment_offset_mm r) = false
    /\ is_nullish (status r) = false
    /\ result (app (exec (sendFrame_resume f ts (Fulfilled data)) w)) = Some r.
Proof.
  intros w f ts data r px mm st.
  repeat split; try reflexivity.
  - subst r px. cbn. unfold nullish_or.
    destruct (is_nullish (opt_get data "alignment_offset_pixels")) eqn:E;
      [reflexivity | exact E].
  - subst r mm. cbn. unfold nullish_or.
    destruct (is_nullish (opt_get data "alignment_offset_mm")) eqn:E;
      [reflexivity | exact E].
  - subst r st. cbn. unfold nullish_or.
    destruct (is_nullish (opt_get data "status")) eqn:E;
      [reflexivity | exact E].
Qed.

(** ** The overlay *)

Lemma overlay_strokes (img : Frame) (data : SafeData) (c : Canvas) :
  let centerX := JNum (num_of_Z (frameWidth img) / 2) in
  let detectedX :=
    js_add (JNum (num_of_Z (frameWidth img) / 2))
           (js_or (alignment_offset_pixels data) (JNum 0)) in
  let height := JNum (num_of_Z (frameHeight img)) in
  strokes (overlay_onload img data c)
  = [ {| sp_style := "white"; sp_width := 2;
         sp_dash := [5%float; 5%float];
         sp_points := [(centerX, JNum 0); (centerX, height)] |};
      {| sp_style := overlay_line_color (status data); sp_width := 4;
         sp_dash := [];
         sp_points := [(detectedX, JNum 0); (detectedX, height)] |} ].
Proof.
  cbv zeta. unfold strokes, overlay_onload, draw. cbn [drawn set_canvas_height
    set_canvas_width cwidth cheight app].
  destruct (0 <? timestamp data)%float; reflexivity.
Qed.

(** C4: the colour of the detected line depends on the status of the
    record only, and the badge colour follows the four-way table of
    [getStatusColor]; but for a record whose status is "UNKNOWN" (the default
    [sendFrame] fills in) the line is stroked in "lime", the colour of OK,
    where [getStatusColor] answers gray. *)
Theorem C4_unknown_status_is_stroked_lime :
  forall (c : Canvas) (img : Frame) (data : SafeData),
    map sp_style (strokes (overlay_onload img data c))
    = ["white"; overlay_line_color (status data)]
    /\ map sp_style
         (strokes
            (overlay_onload img
               {| alignment_offset_pixels := alignment_offset_pixels data;
                  alignment_offset_mm := alignment_offset_mm data;
                  status := JStr "UNKNOWN";
                  timestamp := timestamp data |} c))
       = ["white"; "lime"]
    /\ overlay_line_color (JStr "CRITICAL") = "red"
    /\ overlay_line_color (JStr "WARNING") = "orange"
    /\ overlay_line_color (JStr "OK") = "lime"
    /\ overlay_line_color (JStr "UNKNOWN") = "lime"
    /\ getStatusColor (JStr "CRITICAL") = "#ff4444"
    /\ getStatusColor (JStr "WARNING") = "#ffaa00"
    /\ getStatusColor (JStr "OK") = "#00ff88"
    /\ getStatusColor (JStr "UNKNOWN") = "#888888"
    /\ status (make_safeData (JObj []) (timestamp data)) = JStr "UNKNOWN".
Proof.
  intros c img data.
  rewrite !overlay_strokes. repeat split.
Qed.

(** *** Arithmetic of the line positions *)

Lemma round_aux_sign (sx : bool) (mx ex : Z) (lx : location) :
  binary_round_aux prec emax sx mx ex lx <> S754_zero (negb sx)
  /\ forall m e, binary_round_aux prec emax sx mx ex lx
                 <> S754_finite (negb sx) m e.
Proof.
  unfold binary_round_aux.
  destruct (shr_fexp prec emax mx ex lx) as [mrs' e'].
  destruct (shr_fexp prec emax _ e' loc_Exact) as [mrs'' e''].
  destruct (shr_m mrs'') as [|m|m].
  - split; [|discriminate]. destruct sx; discriminate.
  - destruct (Z.leb e'' (emax - prec)); split; try discriminate.
    intros m0 e0. destruct sx; discriminate.
  - split; discriminate.
Qed.

(** Half of a canvas width is never the negative zero. *)
Lemma half_width_not_neg_zero (z : Z) :
  Prim2SF (num_of_Z z / 2) <> S754_zero true.
Proof.
  unfold num_of_Z. rewrite FloatAxioms.div_spec, FloatAxioms.of_uint63_spec.
  replace (Prim2SF 2) with (S754_finite false 4503599627370496 (-51))
    by (vm_compute; reflexivity).
  pose proof (Uint63.to_Z_bounded (Uint63.of_Z z)) as Hb.
  destruct (Uint63.to_Z (Uint63.of_Z z)) as [|p|p]; [discriminate| |lia].
  unfold binary_normalize, binary_round.
  destruct (shl_align p 0 _) as [mz ez].
  pose proof (round_aux_sign false (Zpos mz) ez loc_Exact) as [Hz Hf].
  destruct (binary_round_aux prec emax false (Zpos mz) ez loc_Exact)
    as [s|s| |s m e] eqn:E; cbn [negb] in *.
  - destruct s; [congruence|discriminate].
  - discriminate.
  - discriminate.
  - destruct s; [exfalso; eapply Hf; reflexivity|].
    unfold SF64div, SFdiv.
    destruct (SFdiv_core_binary prec emax (Zpos m) e
                (Zpos 4503599627370496) (-51)) as [[mq eq] lq].
    apply (round_aux_sign false).
Qed.

(** An offset that [||] replaces by 0 is a zero, unless it is NaN. *)
Lemma falsy_number_is_zero (o : float) :
  PrimFloat.is_nan o = false -> (o =? 0)%float = true ->
  exists s, Prim2SF o = S754_zero s.
Proof.
  intros _ H. rewrite FloatAxioms.eqb_spec in H.
  replace (Prim2SF 0) with (S754_zero false) in H by reflexivity.
  unfold SFeqb, SFcompare in H.
  destruct (Prim2SF o) as [s|s| |s m e].
  - now exists s.
  - destruct s; discriminate.
  - discriminate.
  - destruct s; discriminate.
Qed.

Lemma add_zero_any_sign (c o : float) (s : bool) :
  Prim2SF c <> S754_zero true -> Prim2SF o = S754_zero s ->
  (c + 0 = c + o)%float.
Proof.
  intros Hc Ho. apply Prim2SF_inj. rewrite !FloatAxioms.add_spec, Ho.
  replace (Prim2SF 0) with (S754_zero false) by reflexivity.
  unfold SF64add, SFadd.
  destruct (Prim2SF c) as [sc|sc| |sc m e]; try reflexivity.
  destruct sc; [congruence|]. destruct s; reflexivity.
Qed.

Lemma detectedX_numeric (z : Z) (o : float) :
  PrimFloat.is_nan o = false ->
  js_add (JNum (num_of_Z z / 2)) (js_or (JNum o) (JNum 0))
  = JNum (num_of_Z z / 2 + o).
Proof.
  intros Hnan. unfold js_or, truthy. rewrite Hnan, orb_false_r.
  destruct (o =? 0)%float eqn:E; cbn [negb]; [|reflexivity].
  destruct (falsy_number_is_zero o Hnan E) as [s Hs].
  unfold js_add. cbn [stringish orb to_number]. f_equal.
  apply (add_zero_any_sign _ _ s); [apply half_width_not_neg_zero | exact Hs].
Qed.

(** C5: [img.onload] sizes the canvas to the intrinsic size of the frame it
    was given, whatever the size was before, strokes the dashed reference
    line at [centerX = canvas.width / 2] and the detected line at
    [centerX + offset], for every record whose pixel offset is a number
    other than NaN. *)
Theorem C5_overlay_line_positions :
  forall (c : Canvas) (img : Frame) (data : SafeData) (o : float),
    alignment_offset_pixels data = JNum o ->
    PrimFloat.is_nan o = false ->
    let c' := overlay_onload img data c in
    let centerX := (num_of_Z (frameWidth img) / 2)%float in
    let measuredX := (centerX + o)%float in
    let bottom := JNum (num_of_Z (frameHeight img)) in
    cwidth c' = frameWidth img
    /\ cheight c' = frameHeight img
    /\ strokes c'
       = [ {| sp_style := "white"; sp_width := 2;
              sp_dash := [5%float; 5%float];
              sp_points := [(JNum centerX, JNum 0); (JNum centerX, bottom)] |};
           {| sp_style := overlay_line_color (status data); sp_width := 4;
              sp_dash := [];
              sp_points := [(JNum measuredX, JNum 0);
                            (JNum measuredX, bottom)] |} ].
Proof.
  intros c img data o Hpx Hnan c' centerX measuredX bottom.
  split; [reflexivity|]. split; [reflexivity|].
  subst c'. rewrite overlay_strokes, Hpx, detectedX_numeric by exact Hnan.
  reflexivity.
Qed.

(** ** The result and the history stay in step *)

Ltac unfold_js :=
  unfold exec, bind, get, modify, ret, throw, try_catch in *.

Ltac split_matches :=
  repeat first
    [ match goal with
      | H : videoRef ?w = _ |- context [videoRef ?w] => rewrite H
      end
    | match goal with
      | |- context [match videoRef ?w with _ => _ end] =>
          destruct (videoRef w) eqn:?
      end
    | match goal with
      | |- context [match srcObject ?e with _ => _ end] =>
          destruct (srcObject e) eqn:?
      end
    | match goal with
      | |- context [match slot ?e with _ => _ end] => destruct (slot e) eqn:?
      end
    | match goal with
      | |- context [negb (paused ?e)] => destruct (paused e) eqn:?
      end
    | match goal with
      | |- context [negb (String.prefix ?a ?b)] =>
          destruct (String.prefix a b) eqn:?
      end
    | progress cbn ].

Lemma fire_record (cb : TimerCallback) (shot : Frame) (now : float)
  (w : World) :
  result (app (exec (fire cb shot now) w)) = result (app w)
  /\ analysisHistory (app (exec (fire cb shot now) w))
     = analysisHistory (app w).
Proof.
  unfold fire, captureAndAnalyzeFrame, videoRef_current, sendFrame_post,
    setLoading.
  unfold_js. destruct cb; cbn; split_matches; cbn; split; reflexivity.
Qed.

Lemma fire_all_record (ts : list Timer) (shot : Frame) (now : float) :
  forall w : World,
    result (app (fire_all ts shot now w)) = result (app w)
    /\ analysisHistory (app (fire_all ts shot now w))
       = analysisHistory (app w).
Proof.
  induction ts as [|t rest IH]; intros w; [split; reflexivity|].
  cbn [fire_all].
  destruct (IH (exec (fire (callback t) shot now) w)) as [-> ->].
  apply fire_record.
Qed.

Lemma handler_keeps_record_in_step (w : World) (e : Event) :
  hd_error (analysisHistory (app w)) = result (app w) ->
  hd_error (analysisHistory (app (exec (handler e) w)))
  = result (app (exec (handler e) w)).
Proof.
  intros H. destruct e; cbn [handler].
  - exact H.
  - exact H.
  - unfold startWebcam, getUserMedia, videoRef_current, set_current,
      setStreaming, setMode, alert.
    unfold_js. destruct r; cbn; split_matches; cbn; exact H.
  - unfold stopWebcam, stop_tracks, setStreaming, setMode.
    unfold_js. cbn. split_matches; cbn; exact H.
  - unfold handleImageChange, sendFrame_post, setLoading.
    unfold_js. destruct file; cbn; exact H.
  - unfold handleVideoChange, set_current, setVideoFile, setVideoUrl,
      setResult, setAnalysisHistory, alert.
    unfold_js. destruct file; cbn; split_matches; cbn;
      solve [exact H | reflexivity].
  - unfold video_plays, handleVideoPlay, startFrameCapture, setInterval,
      set_current, setIsPlaying.
    unfold_js. cbn. split_matches; cbn; exact H.
  - unfold video_pauses, handleVideoPause, set_current, setIsPlaying.
    unfold_js. cbn. split_matches; cbn; exact H.
  - reflexivity.
  - unfold_js. cbn.
    destruct (fire_all_record (timers w) shot now w) as [-> ->]. exact H.
  - unfold settle, sendFrame_resume, await_post, drawOverlay, setResult,
      setAnalysisHistory, setLoading.
    unfold_js. cbn.
    destruct (nth_error (inflight w) i) as [[f ts]|]; [|exact H].
    destruct o; cbn; [reflexivity | exact H].
  - unfold image_loads. unfold_js. cbn.
    destruct (nth_error (pendingImages w) i) as [[d f]|]; cbn; exact H.
Qed.

Lemma step_keeps_record_in_step (w : World) (e : Event) :
  hd_error (analysisHistory (app w)) = result (app w) ->
  hd_error (analysisHistory (app (step w e))) = result (app (step w e)).
Proof.
  intros H. unfold step. rewrite commit_app.
  now apply handler_keeps_record_in_step.
Qed.

Lemma run_keeps_record_in_step (es : list Event) :
  forall w : World,
    hd_error (analysisHistory (app w)) = result (app w) ->
    hd_error (analysisHistory (app (run w es))) = result (app (run w es)).
Proof.
  induction es as [|e rest IH]; intros w H; [exact H|].
  cbn [run fold_left]. apply IH. now apply step_keeps_record_in_step.
Qed.

(** C9: every successful [sendFrame] makes its record both the current
    result and the newest history entry, and in every state the page can be
    in the current result is the newest history entry (both absent after a
    reset): no handler updates one without the other. *)
Theorem C9_result_is_newest_history_entry :
  (forall (w : World) (f : Frame) (ts : float) (data : JsVal),
      let w' := after_sendFrame w (f, ts, Fulfilled data) in
      result (app w') = Some (make_safeData data ts)
      /\ hd_error (analysisHistory (app w')) = Some (make_safeData data ts))
  /\ (forall (w : World) (i : nat) (data : JsVal),
        let w' := step w (Response i (Fulfilled data)) in
        match nth_error (inflight w) i with
        | Some (f, ts) =>
            result (app w') = Some (make_safeData data ts)
            /\ hd_error (analysisHistory (app w'))
               = Some (make_safeData data ts)
        | None => app w' = app w
        end)
  /\ (forall es : list Event,
        hd_error (analysisHistory (app (run initial_world es)))
        = result (app (run initial_world es))).
Proof.
  split; [|split].
  - intros w f ts data w'. subst w'.
    rewrite after_sendFrame_fulfilled_app. split; reflexivity.
  - intros w i data w'. subst w'. unfold step. rewrite commit_app.
    cbn [handler]. unfold settle. unfold_js.
    destruct (nth_error (inflight w) i) as [[f ts]|]; cbn;
      [split; reflexivity | reflexivity].
  - intros es. now apply run_keeps_record_in_step.
Qed.

(** ** The loading flag *)

(** C10: [sendFrame] sets the loading flag on entry and clears it when it
    completes, whether the request was fulfilled or rejected; it always
    completes normally. *)
Theorem C10_loading_flag_is_always_cleared :
  (forall (w : World) (f : Frame) (ts : float),
      loading (app (exec (sendFrame_post f ts) w)) = true)
  /\ (forall (w : World) (f : Frame) (ts : float) (o : HttpOutcome),
        fst (sendFrame_resume f ts o w) = Normal tt
        /\ loading (app (exec (sendFrame_resume f ts o) w)) = false)
  /\ (forall (w : World) (f : Frame) (ts : float) (o : HttpOutcome),
        loading (app (exec (setLoading true) w)) = true
        /\ fst (sendFrame f ts o w) = Normal tt
        /\ loading (app (after_sendFrame w (f, ts, o))) = false)
  /\ (forall (w : World) (i : nat) (o : HttpOutcome),
        match nth_error (inflight w) i with
        | Some _ => loading (app (step w (Response i o))) = false
        | None => loading (app (step w (Response i o))) = loading (app w)
        end).
Proof.
  repeat split.
  - destruct o; reflexivity.
  - destruct o; reflexivity.
  - destruct o; reflexivity.
  - unfold after_sendFrame. rewrite commit_app. destruct o; reflexivity.
  - intros w i o. unfold step. rewrite commit_app. cbn [handler].
    unfold settle. unfold_js.
    destruct (nth_error (inflight w) i) as [[f ts]|]; [|reflexivity].
    destruct o; reflexivity.
Qed.

(** ** Camera acquisition *)

(** C7: when [getUserMedia] is refused (permission denied, no device),
    [startWebcam] changes nothing but the alerts shown: the mode and the
    streaming flag keep their values (a flag that was false stays false), no
    interval is created and no render is scheduled. *)
Theorem C7_refused_camera_changes_nothing :
  forall (w : World) (err : string),
    renderScheduled w = false ->
    let w' := step w (ClickUseWebcam (Refused err)) in
    w' = with_alerts (alerts w ++ ["Cannot access webcam"]) w
    /\ mode (app w') = mode (app w)
    /\ streaming (app w') = streaming (app w)
    /\ (streaming (app w) = false -> streaming (app w') = false)
    /\ timers w' = timers w
    /\ effectInterval w' = effectInterval w
    /\ renderScheduled w' = false.
Proof.
  intros w err Hq w'.
  assert (E : w' = with_alerts (alerts w ++ ["Cannot access webcam"]) w).
  { subst w'. unfold step, commit.
    change (exec (handler (ClickUseWebcam (Refused err))) w)
      with (with_alerts (alerts w ++ ["Cannot access webcam"]) w).
    cbn [renderScheduled with_alerts]. now rewrite Hq. }
  rewrite E. cbn. repeat split; auto.
Qed.

(** [stopWebcam] stops the tracks of the stream attached to the video
    element that [videoRef] holds at that moment, if there is one, and
    always leaves the streaming flag false and the mode Upload. *)
Lemma stopWebcam_effect (w : World) :
  let w' := exec stopWebcam w in
  streaming (app w') = false
  /\ mode (app w') = Upload
  /\ streams w'
     = match videoRef w with
       | Some el =>
           match srcObject el with
           | Some stream =>
               update_nth stream (map (fun _ => false)) (streams w)
           | None => streams w
           end
       | None => streams w
       end.
Proof.
  unfold stopWebcam, stop_tracks, setStreaming, setMode. unfold_js. cbn.
  destruct (videoRef w) as [el|]; [destruct (srcObject el)|];
    cbn; repeat split.
Qed.

Lemma live_tracks_fresh_stream (w : World) (n : nat) :
  streams w = [repeat true n] -> live_tracks w = n.
Proof.
  intros H. unfold live_tracks. rewrite H. cbn [List.concat].
  rewrite app_nil_r. clear H. induction n as [|n IH]; [reflexivity|].
  cbn [repeat filter List.length]. f_equal. exact IH.
Qed.

(** C8: after a video file is chosen, the camera is granted and the webcam
    is stopped again, the page is back in Upload mode with the streaming flag
    false, but every track of the stream that was acquired is still live:
    the stream was attached to the file player, and the webcam view that
    replaced it, which is the element [stopWebcam] consults, holds none. *)
Theorem C8_acquired_tracks_outlive_stopWebcam :
  forall (name url : string) (size : Z) (n : nat),
    let file := {| fileName := name; fileType := "video/mp4";
                   fileSize := size |} in
    let entering := [ ClickUploadVideo; ChooseVideo (Some file) url;
                      ClickUseWebcam (Granted n) ] in
    let w1 := run initial_world entering in
    let w2 := step w1 ClickStopWebcam in
    feasible initial_world (entering ++ [ClickStopWebcam]) = true
    /\ mode (app w1) = Webcam
    /\ streaming (app w1) = true
    /\ videoRef w1 = Some {| slot := WebcamVideo; paused := true;
                             srcObject := None; src := None |}
    /\ mode (app w2) = Upload
    /\ streaming (app w2) = false
    /\ streams w2 = [repeat true n]
    /\ live_tracks w2 = n.
Proof.
  intros name url size n file entering w1 w2.
  repeat split; try reflexivity.
  apply live_tracks_fresh_stream. reflexivity.
Qed.

(** ** Sampling timers *)

Lemma deps_eqb_refl (d : Mode * bool * bool) : deps_eqb d d = true.
Proof. destruct d as [[[] []] []]; reflexivity. Qed.

Lemma tick_with_sampler_left_behind (w : World) (shot : Frame) (now : float) :
  sampler_left_behind w ->
  sampler_left_behind (step w (Tick shot now))
  /\ sent (step w (Tick shot now)) = S (sent w).
Proof.
  intros ([id Ht] & (el & Hv & Hs & Hp) & Hm & [url Hu] & Hi & Hd).
  unfold step, commit. cbn [handler]. unfold_js. cbn [snd].
  rewrite Ht. cbn [fire_all callback fire].
  unfold captureAndAnalyzeFrame, sendFrame_post, setLoading. unfold_js.
  rewrite Hv, Hp. cbn. rewrite Hv. cbn.
  unfold mount_video, wanted_slot. cbn.
  rewrite Hd, Hm, Hu, Hv. unfold deps_of. cbn. rewrite Hm, Hs. cbn.
  rewrite !Bool.eqb_reflx. cbn.
  unfold sampler_left_behind. cbn.
  split; [|reflexivity].
  split; [now exists id|].
  split; [eexists; split; [reflexivity|]; cbn; now split|].
  split; [exact Hm|].
  split; [now exists url|].
  split; [exact Hi|].
  rewrite Hd. reflexivity.
Qed.

Lemma run_ticks_succ (w : World) (shot : Frame) (now : float) (k : nat) :
  run w (ticks (S k) shot now)
  = run (step w (Tick shot now)) (ticks k shot now).
Proof. reflexivity. Qed.

Lemma ticks_with_sampler_left_behind (shot : Frame) (now : float) (k : nat) :
  forall w : World,
    sampler_left_behind w ->
    sent (run w (ticks k shot now)) = sent w + k.
Proof.
  induction k as [|k IH]; intros w H.
  - change (run w (ticks 0 shot now)) with w. lia.
  - destruct (tick_with_sampler_left_behind w shot now H) as [H' Hs].
    rewrite run_ticks_succ, IH by exact H'. lia.
Qed.

(** C6: the interval created by [startFrameCapture] when the video starts
    to play is never cleared.  After the user leaves Video mode while the
    file plays, the effect's interval is gone but that one still fires and
    submits a frame every period; after a pause it is still pending,
    although its callback then does nothing. *)
Theorem C6_play_timer_survives_stopping :
  forall (name url : string) (size : Z) (shot : Frame) (now : float)
         (k : nat),
    let file := {| fileName := name; fileType := "video/mp4";
                   fileSize := size |} in
    let playing := [ ClickUploadVideo; ChooseVideo (Some file) url;
                     VideoPlays ] in
    let left := run initial_world (playing ++ [ClickUploadImage]) in
    let halted := run initial_world (playing ++ [VideoPauses]) in
    feasible initial_world (playing ++ [ClickUploadImage]) = true
    /\ mode (app left) = Upload
    /\ effectInterval left = None
    /\ timers left = [{| timerId := 0; callback := PlayTimer |}]
    /\ sent (run left (ticks k shot now)) = sent left + k
    /\ feasible initial_world (playing ++ [VideoPauses]) = true
    /\ isPlaying (app halted) = false
    /\ timers halted = [{| timerId := 0; callback := PlayTimer |}].
Proof.
  intros name url size shot now k file playing left halted.
  split; [vm_compute; reflexivity|].
  split; [vm_compute; reflexivity|].
  split; [vm_compute; reflexivity|].
  split; [vm_compute; reflexivity|].
  split; [|repeat split; vm_compute; reflexivity].
  apply ticks_with_sampler_left_behind.
  unfold sampler_left_behind.
  split; [exists 0; vm_compute; reflexivity|].
  split.
  { exists {| slot := FileVideo; paused := false; srcObject := None;
              src := Some url |}.
    repeat split; vm_compute; reflexivity. }
  split; [vm_compute; reflexivity|].
  split; [exists url; vm_compute; reflexivity|].
  split; vm_compute; reflexivity.
Qed.

(** * Further properties of the main variant *)

(** ** Rendering *)

Lemma commit_idle (w : World) : renderScheduled w = false -> commit w = w.
Proof. intros H. unfold commit. now rewrite H. Qed.

Lemma sampling_effect_rendered (w : World) :
  renderScheduled (sampling_effect w) = renderScheduled w.
Proof.
  unfold sampling_effect.
  destruct (mode_eqb (mode (app w)) Webcam && streaming (app w)); [reflexivity|].
  destruct (mode_eqb (mode (app w)) Video && isPlaying (app w)
            && match videoRef w with Some _ => true | None => false end);
    reflexivity.
Qed.

Lemma clearInterval_rendered (i : option nat) (w : World) :
  renderScheduled (clearInterval i w) = renderScheduled w.
Proof. destruct i; reflexivity. Qed.

Lemma commit_rendered (w : World) : renderScheduled (commit w) = false.
Proof.
  unfold commit. destruct (renderScheduled w) eqn:E; [|exact E].
  cbv zeta.
  match goal with |- context [if ?b then _ else _] => destruct b end;
    [reflexivity|].
  rewrite sampling_effect_rendered. unfold sampling_cleanup.
  now rewrite clearInterval_rendered.
Qed.

Lemma clearInterval_counters (i : option nat) (w : World) :
  streams (clearInterval i w) = streams w
  /\ inflight (clearInterval i w) = inflight w
  /\ sent (clearInterval i w) = sent w
  /\ alerts (clearInterval i w) = alerts w.
Proof. destruct i; repeat split. Qed.

Lemma sampling_effect_counters (w : World) :
  streams (sampling_effect w) = streams w
  /\ inflight (sampling_effect w) = inflight w
  /\ sent (sampling_effect w) = sent w
  /\ alerts (sampling_effect w) = alerts w.
Proof.
  unfold sampling_effect.
  destruct (mode_eqb (mode (app w)) Webcam && streaming (app w));
    [repeat split|].
  destruct (mode_eqb (mode (app w)) Video && isPlaying (app w)
            && match videoRef w with Some _ => true | None => false end);
    repeat split.
Qed.

Lemma commit_counters (w : World) :
  streams (commit w) = streams w
  /\ inflight (commit w) = inflight w
  /\ sent (commit w) = sent w
  /\ alerts (commit w) = alerts w.
Proof.
  unfold commit. destruct (renderScheduled w); [|repeat split].
  cbv zeta.
  match goal with |- context [if ?b then _ else _] => destruct b end;
    [repeat split|].
  match goal with
  | |- context [sampling_effect ?x] =>
      destruct (sampling_effect_counters x) as (-> & -> & -> & ->)
  end.
  unfold sampling_cleanup.
  match goal with
  | |- context [clearInterval ?i ?x] =>
      destruct (clearInterval_counters i x) as (-> & -> & -> & ->)
  end.
  repeat split.
Qed.

(** ** Ticks that sample nothing *)

Lemma fire_without_video (cb : TimerCallback) (shot : Frame) (now : float)
  (w : World) :
  videoRef w = None -> exec (fire cb shot now) w = w.
Proof.
  intros H. unfold fire, captureAndAnalyzeFrame, videoRef_current.
  unfold_js. destruct cb; cbn; rewrite H; reflexivity.
Qed.

Lemma fire_all_without_video (ts : list Timer) (shot : Frame) (now : float)
  (w : World) :
  videoRef w = None -> fire_all ts shot now w = w.
Proof.
  intros H. induction ts as [|t rest IH]; [reflexivity|].
  cbn [fire_all]. now rewrite fire_without_video.
Qed.

Lemma tick_without_video (w : World) (shot : Frame) (now : float) :
  renderScheduled w = false -> videoRef w = None ->
  step w (Tick shot now) = w.
Proof.
  intros Hr Hv. unfold step. cbn [handler]. unfold_js. cbn [snd].
  rewrite fire_all_without_video by exact Hv. now apply commit_idle.
Qed.

Lemma ticks_without_video (shot : Frame) (now : float) (k : nat) (w : World) :
  renderScheduled w = false -> videoRef w = None ->
  run w (ticks k shot now) = w.
Proof.
  intros Hr Hv. induction k as [|k IH]; [reflexivity|].
  now rewrite run_ticks_succ, tick_without_video.
Qed.

(** X1: while no video element is mounted, elapsing time changes nothing,
    whatever intervals are active: [captureAndAnalyzeFrame] returns at its
    first line, the [startFrameCapture] callback fails its guard, and the
    TypeError of the effect's video callback is lost.  In particular no
    request is posted. *)
Theorem ticks_change_nothing_without_video_element :
  forall (w : World) (shot : Frame) (now : float) (k : nat),
    renderScheduled w = false ->
    videoRef w = None ->
    run w (ticks k shot now) = w
    /\ sent (run w (ticks k shot now)) = sent w.
Proof.
  intros w shot now k Hr Hv.
  rewrite ticks_without_video by assumption. split; reflexivity.
Qed.

Lemma fire_paused (cb : TimerCallback) (shot : Frame) (now : float)
  (w : World) (el : VideoEl) :
  videoRef w = Some el -> paused el = true ->
  cb <> WebcamEffectTimer ->
  exec (fire cb shot now) w = w.
Proof.
  intros Hv Hp Hcb. unfold fire, videoRef_current.
  unfold_js. destruct cb; cbn; rewrite ?Hv; cbn; rewrite ?Hp;
    [reflexivity | congruence | reflexivity].
Qed.

Lemma fire_all_paused (ts : list Timer) (shot : Frame) (now : float)
  (w : World) (el : VideoEl) :
  videoRef w = Some el -> paused el = true ->
  forallb (fun t => negb (is_webcam_timer t)) ts = true ->
  fire_all ts shot now w = w.
Proof.
  intros Hv Hp. induction ts as [|t rest IH]; intros Hts; [reflexivity|].
  cbn [forallb] in Hts. apply andb_prop in Hts as [Ht Hrest].
  cbn [fire_all]. rewrite (fire_paused _ _ _ _ el Hv Hp).
  - now apply IH.
  - intros E. unfold is_webcam_timer in Ht. rewrite E in Ht. discriminate.
Qed.

(** X2: while the video element is paused and no webcam interval of the
    effect is active, elapsing time changes nothing: both callbacks that
    sample a video test [paused] first, so a paused video is never
    sampled. *)
Theorem ticks_change_nothing_while_paused :
  forall (w : World) (el : VideoEl) (shot : Frame) (now : float) (k : nat),
    renderScheduled w = false ->
    videoRef w = Some el ->
    paused el = true ->
    forallb (fun t => negb (is_webcam_timer t)) (timers w) = true ->
    run w (ticks k shot now) = w.
Proof.
  intros w el shot now k Hr Hv Hp Hts.
  induction k as [|k IH]; [reflexivity|].
  rewrite run_ticks_succ.
  replace (step w (Tick shot now)) with w; [exact IH|].
  unfold step. cbn [handler]. unfold_js. cbn [snd].
  rewrite (fire_all_paused _ _ _ _ el Hv Hp Hts).
  symmetry. now apply commit_idle.
Qed.

(** ** Clearing the video *)

(** X3: outside webcam mode, Clear Video empties the file, the URL, the
    result and the history, clears [isPlaying] and unmounts the player;
    from then on no interval ever posts a frame, including one left behind
    by [startFrameCapture]. *)
Theorem resetVideo_stops_all_sampling :
  forall (w : World) (shot : Frame) (now : float) (k : nat),
    mode_eqb (mode (app w)) Webcam = false ->
    let w' := step w ClickClearVideo in
    app w' = {| mode := mode (app w); videoFile := None; videoUrl := None;
                result := None; streaming := streaming (app w);
                loading := loading (app w); analysisHistory := [];
                isPlaying := false |}
    /\ videoRef w' = None
    /\ run w' (ticks k shot now) = w'.
Proof.
  intros w shot now k Hm w'.
  assert (Happ : app w' = {| mode := mode (app w); videoFile := None;
                             videoUrl := None; result := None;
                             streaming := streaming (app w);
                             loading := loading (app w);
                             analysisHistory := [];
                             isPlaying := false |}).
  { subst w'. unfold step. rewrite commit_app. reflexivity. }
  assert (Hv : videoRef w' = None).
  { subst w'. unfold step, commit. cbn [handler]. unfold resetVideo,
      setVideoFile, setVideoUrl, setResult, setAnalysisHistory, setIsPlaying.
    unfold_js. cbn. unfold mount_video, wanted_slot. cbn.
    destruct (mode (app w)); try discriminate; cbn.
    all: match goal with
         | |- context [if ?b then _ else _] => destruct b
         end; try reflexivity.
    all: unfold sampling_effect, sampling_cleanup; cbn;
      destruct (effectInterval w); cbn;
        repeat match goal with
               | |- context [if ?b then _ else _] => destruct b
               end; reflexivity. }
  split; [exact Happ|]. split; [exact Hv|].
  apply ticks_without_video; [|exact Hv].
  subst w'. unfold step. apply commit_rendered.
Qed.

(** ** File inputs *)

(** X4: a change event that carries no file does nothing, for the image
    input and for the video input alike; a chosen image posts exactly one
    request, stamped 0, and raises the loading flag. *)
Theorem file_inputs_without_file_do_nothing :
  forall (w : World) (url : string) (f : Frame),
    renderScheduled w = false ->
    step w (ChooseImage None) = w
    /\ step w (ChooseVideo None url) = w
    /\ inflight (step w (ChooseImage (Some f))) = inflight w ++ [(f, 0%float)]
    /\ sent (step w (ChooseImage (Some f))) = S (sent w)
    /\ app (step w (ChooseImage (Some f))) = set_loading true (app w).
Proof.
  intros w url f Hr. unfold step.
  split; [now apply commit_idle|]. split; [now apply commit_idle|].
  rewrite commit_app.
  match goal with
  | |- context [commit ?x] =>
      destruct (commit_counters x) as (_ & -> & -> & _)
  end.
  repeat split.
Qed.

(** X5: a file whose type does not start with "video/" is refused by
    [handleVideoChange]: the user is alerted and nothing else changes (the
    previous video, result and history stay). *)
Theorem handleVideoChange_refuses_other_types :
  forall (w : World) (f : File) (url : string),
    renderScheduled w = false ->
    String.prefix "video/" (fileType f) = false ->
    step w (ChooseVideo (Some f) url)
    = with_alerts (alerts w ++ ["Please select a valid video file"]) w.
Proof.
  intros w f url Hr Hty. unfold step. cbn [handler].
  unfold handleVideoChange. rewrite Hty. cbn [negb].
  unfold alert. unfold_js. cbn [snd]. apply commit_idle. exact Hr.
Qed.

Lemma commit_videoRef (w : World) :
  videoRef (commit w)
  = if renderScheduled w then mount_video (app w) (videoRef w)
    else videoRef w.
Proof.
  unfold commit. destruct (renderScheduled w); [|reflexivity].
  cbv zeta.
  match goal with |- context [if ?b then _ else _] => destruct b end;
    [reflexivity|].
  unfold sampling_effect, sampling_cleanup, clearInterval.
  cbn [effectInterval rendered with_videoRef].
  destruct (effectInterval w); cbn;
    repeat match goal with
           | |- context [if ?b then _ else _] => destruct b
           end; reflexivity.
Qed.

Lemma mount_file_player (a : AppState) (cur : option VideoEl) (url : string) :
  mode_eqb (mode a) Webcam = false ->
  videoUrl a = Some url ->
  exists el, mount_video a cur = Some el /\ slot el = FileVideo
             /\ src el = Some url.
Proof.
  intros Hm Hu. unfold mount_video, wanted_slot. rewrite Hu.
  destruct (mode a); try discriminate.
  all: destruct cur as [el|]; [destruct (slot el)|]; unfold fresh_video;
    cbn; rewrite ?Hu; eexists; repeat split; reflexivity.
Qed.

Lemma handleVideoChange_accepts (w : World) (f : File) (url : string) :
  String.prefix "video/" (fileType f) = true ->
  let w1 := exec (handleVideoChange (Some f) url) w in
  app w1 = set_analysisHistory (fun _ => [])
             (set_result None
                (set_videoUrl (Some url) (set_videoFile (Some f) (app w))))
  /\ renderScheduled w1 = true.
Proof.
  intros Hty. unfold handleVideoChange. rewrite Hty. cbn [negb].
  unfold setVideoFile, setVideoUrl, setResult, setAnalysisHistory,
    set_current.
  unfold_js. cbn. destruct (videoRef w); split; reflexivity.
Qed.

(** X6: a video file that is accepted becomes the current file under the
    URL created for it, the result and the history are emptied, and, outside
    webcam mode, the player is mounted with that URL as its source. *)
Theorem handleVideoChange_loads_the_player :
  forall (w : World) (f : File) (url : string),
    String.prefix "video/" (fileType f) = true ->
    mode_eqb (mode (app w)) Webcam = false ->
    let w' := step w (ChooseVideo (Some f) url) in
    videoFile (app w') = Some f
    /\ videoUrl (app w') = Some url
    /\ result (app w') = None
    /\ analysisHistory (app w') = []
    /\ mode (app w') = mode (app w)
    /\ exists el, videoRef w' = Some el /\ slot el = FileVideo
                  /\ src el = Some url.
Proof.
  intros w f url Hty Hm w'.
  destruct (handleVideoChange_accepts w f url Hty) as [Happ Hr].
  subst w'. unfold step. cbn [handler].
  rewrite commit_app, commit_videoRef, Hr, Happ.
  cbn [videoFile videoUrl result analysisHistory mode set_analysisHistory
       set_result set_videoUrl set_videoFile].
  repeat split.
  now apply mount_file_player.
Qed.

(** ** Camera streams *)

Lemma fire_streams (cb : TimerCallback) (shot : Frame) (now : float)
  (w : World) :
  streams (exec (fire cb shot now) w) = streams w.
Proof.
  unfold fire, captureAndAnalyzeFrame, videoRef_current, sendFrame_post,
    setLoading.
  unfold_js. destruct cb; cbn; split_matches; reflexivity.
Qed.

Lemma fire_all_streams (ts : list Timer) (shot : Frame) (now : float) :
  forall w : World, streams (fire_all ts shot now w) = streams w.
Proof.
  induction ts as [|t rest IH]; intros w; [reflexivity|].
  cbn [fire_all]. rewrite IH. apply fire_streams.
Qed.

(** X7: only Stop Webcam ever stops a track, and only a granted
    [getUserMedia] adds a stream: every other event (the mode buttons, Clear
    Video, unmounting the video element, a failing [startWebcam]) leaves the
    streams acquired so far exactly as live as they were. *)
Theorem only_stopWebcam_releases_the_camera :
  forall (w : World) (e : Event),
    e <> ClickStopWebcam ->
    streams (step w e) = streams w ++ acquired e.
Proof.
  intros w e He. unfold step.
  match goal with
  | |- context [commit ?x] => destruct (commit_counters x) as (-> & _)
  end.
  destruct e; cbn [handler acquired]; try (symmetry; apply app_nil_r).
  - unfold startWebcam, getUserMedia, videoRef_current, set_current,
      setStreaming, setMode, alert.
    unfold_js. destruct r; cbn; [|symmetry; apply app_nil_r].
    split_matches; reflexivity.
  - congruence.
  - unfold handleImageChange, sendFrame_post, setLoading.
    unfold_js. destruct file; cbn; symmetry; apply app_nil_r.
  - unfold handleVideoChange, set_current, setVideoFile, setVideoUrl,
      setResult, setAnalysisHistory, alert.
    unfold_js. destruct file; cbn; split_matches;
      symmetry; apply app_nil_r.
  - unfold video_plays, handleVideoPlay, startFrameCapture, setInterval,
      set_current, setIsPlaying.
    unfold_js. cbn. split_matches; symmetry; apply app_nil_r.
  - unfold video_pauses, handleVideoPause, set_current, setIsPlaying.
    unfold_js. cbn. split_matches; symmetry; apply app_nil_r.
  - unfold_js. cbn. rewrite fire_all_streams. symmetry; apply app_nil_r.
  - unfold settle, sendFrame_resume, await_post, drawOverlay, setResult,
      setAnalysisHistory, setLoading.
    unfold_js. cbn.
    destruct (nth_error (inflight w) i) as [[f ts]|];
      [destruct o|]; cbn; symmetry; apply app_nil_r.
  - unfold image_loads. unfold_js. cbn.
    destruct (nth_error (pendingImages w) i) as [[d f]|]; cbn;
      symmetry; apply app_nil_r.
Qed.

Lemma live_tracks_app (w : World) (more : list (list bool)) :
  List.length (filter (fun live => live) (List.concat (streams w ++ more)))
  = live_tracks w
    + List.length (filter (fun live => live) (List.concat more)).
Proof.
  unfold live_tracks.
  now rewrite concat_app, filter_app, length_app.
Qed.

Lemma live_repeat_true (n : nat) :
  List.length (filter (fun live => live) (repeat true n)) = n.
Proof.
  induction n as [|n IH]; [reflexivity|].
  cbn [repeat filter List.length]. now rewrite IH.
Qed.

(** X8: clicked while no video element is mounted, Use Webcam fails even
    when the camera is granted: the assignment to [videoRef.current.srcObject]
    throws, the user gets the same alert as for a refusal, the mode and the
    streaming flag do not change, and the tracks just acquired stay live. *)
Theorem startWebcam_without_video_element_leaks_the_stream :
  forall (w : World) (n : nat),
    renderScheduled w = false ->
    videoRef w = None ->
    let w' := step w (ClickUseWebcam (Granted n)) in
    w' = with_alerts (alerts w ++ ["Cannot access webcam"])
           (with_streams (streams w ++ [repeat true n]) w)
    /\ app w' = app w
    /\ timers w' = timers w
    /\ live_tracks w' = live_tracks w + n.
Proof.
  intros w n Hr Hv w'.
  assert (E : w' = with_alerts (alerts w ++ ["Cannot access webcam"])
                     (with_streams (streams w ++ [repeat true n]) w)).
  { subst w'. unfold step. cbn [handler].
    unfold startWebcam, getUserMedia, videoRef_current, alert.
    unfold_js. cbn. rewrite Hv. cbn. apply commit_idle. exact Hr. }
  rewrite E. repeat split.
  unfold live_tracks at 1. cbn [streams with_alerts with_streams].
  rewrite live_tracks_app. cbn [List.concat]. rewrite app_nil_r.
  now rewrite live_repeat_true.
Qed.

Lemma update_nth_nth_error {A : Type} (f : A -> A) (l : list A) :
  forall n m : nat,
    nth_error (update_nth n f l) m
    = if Nat.eqb n m then option_map f (nth_error l m) else nth_error l m.
Proof.
  induction l as [|x rest IH]; intros n m.
  - destruct n, m; cbn; try reflexivity. now destruct (Nat.eqb n m).
  - destruct n as [|n], m as [|m]; cbn; try reflexivity. apply IH.
Qed.

Lemma update_nth_twice {A : Type} (f : A -> A) (l : list A) :
  (forall x, f (f x) = f x) ->
  forall n : nat, update_nth n f (update_nth n f l) = update_nth n f l.
Proof.
  intros Hf. induction l as [|x rest IH]; intros n;
    [destruct n; reflexivity|].
  destruct n as [|n]; cbn; [now rewrite Hf | now rewrite IH].
Qed.

(** X9: [stopWebcam] ends every track of the stream attached to the video
    element that [videoRef] holds and touches no other stream; it tolerates a
    missing element and a missing stream; doing it twice is the same as doing
    it once. *)
Theorem stopWebcam_ends_the_attached_stream :
  forall (w : World) (el : VideoEl) (stream : nat) (tracks : list bool),
    videoRef w = Some el ->
    srcObject el = Some stream ->
    nth_error (streams w) stream = Some tracks ->
    let w' := exec stopWebcam w in
    nth_error (streams w') stream = Some (map (fun _ => false) tracks)
    /\ (forall other, other <> stream ->
          nth_error (streams w') other = nth_error (streams w) other)
    /\ List.length (streams w') = List.length (streams w)
    /\ exec stopWebcam w' = w'
    /\ fst (stopWebcam w) = Normal tt.
Proof.
  intros w el stream tracks Hv Hs Hn w'.
  assert (E : w' = with_app (set_mode Upload)
                     (with_app (set_streaming false)
                        (with_streams
                           (update_nth stream (map (fun _ => false))
                              (streams w)) w))).
  { subst w'. unfold stopWebcam, stop_tracks, setStreaming, setMode.
    unfold_js. cbn. rewrite Hv, Hs. reflexivity. }
  split; [|split; [|split; [|split]]].
  - rewrite E. cbn [streams with_app with_streams].
    rewrite update_nth_nth_error, Nat.eqb_refl, Hn. reflexivity.
  - intros other Ho. rewrite E. cbn [streams with_app with_streams].
    rewrite update_nth_nth_error.
    destruct (Nat.eqb_spec stream other); [congruence|reflexivity].
  - rewrite E. cbn [streams with_app with_streams].
    clear. generalize (streams w). induction stream as [|n IH];
      intros [|x rest]; cbn; try reflexivity. now rewrite IH.
  - rewrite E. unfold stopWebcam, stop_tracks, setStreaming, setMode.
    unfold_js. cbn. rewrite Hv, Hs. cbn.
    rewrite update_nth_twice; [reflexivity|].
    intros l. rewrite map_map. reflexivity.
  - unfold stopWebcam, stop_tracks, setStreaming, setMode.
    unfold_js. cbn. rewrite Hv, Hs. reflexivity.
Qed.

(** ** Responses out of order *)

Lemma step_response_fulfilled (w : World) (i : nat) (f : Frame) (ts : float)
  (data : JsVal) :
  nth_error (inflight w) i = Some (f, ts) ->
  let r := make_safeData data ts in
  let w' := step w (Response i (Fulfilled data)) in
  app w' = set_loading false
             (set_analysisHistory (push_history r)
                (set_result (Some r) (app w)))
  /\ inflight w' = remove_nth i (inflight w)
  /\ pendingImages w' = pendingImages w ++ [(r, f)]
  /\ canvas w' = canvas w.
Proof.
  intros Hn r w'. subst w'. unfold step. rewrite commit_app.
  match goal with
  | |- context [commit ?x] =>
      destruct (commit_counters x) as (_ & -> & _);
      destruct (commit_overlay x) as (-> & ->)
  end.
  cbn [handler]. unfold settle. unfold_js. rewrite Hn.
  repeat split.
Qed.

(** X10: responses take effect in the order they arrive, not in the order
    the frames were sent.  With two requests in flight, if the second is
    answered first, the record of the first request ends up as the current
    result and as the newest history entry, above the record of the frame
    captured after it. *)
Theorem late_response_overwrites_newer_result :
  forall (w : World) (f1 f2 : Frame) (t1 t2 : float) (d1 d2 : JsVal),
    inflight w = [(f1, t1); (f2, t2)] ->
    let r1 := make_safeData d1 t1 in
    let r2 := make_safeData d2 t2 in
    let w' := run w [Response 1 (Fulfilled d2); Response 0 (Fulfilled d1)] in
    result (app w') = Some r1
    /\ analysisHistory (app w')
       = push_history r1 (push_history r2 (analysisHistory (app w)))
    /\ inflight w' = []
    /\ pendingImages w' = pendingImages w ++ [(r2, f2); (r1, f1)]
    /\ loading (app w') = false.
Proof.
  intros w f1 f2 t1 t2 d1 d2 Hin r1 r2 w'.
  assert (H1 : nth_error (inflight w) 1 = Some (f2, t2))
    by (rewrite Hin; reflexivity).
  destruct (step_response_fulfilled w 1 f2 t2 d2 H1) as (A1 & I1 & P1 & _).
  rewrite Hin in I1. cbn [remove_nth] in I1.
  set (w1 := step w (Response 1 (Fulfilled d2))) in *.
  assert (H0 : nth_error (inflight w1) 0 = Some (f1, t1))
    by (rewrite I1; reflexivity).
  destruct (step_response_fulfilled w1 0 f1 t1 d1 H0) as (A0 & I0 & P0 & _).
  change w' with (step w1 (Response 0 (Fulfilled d1))).
  rewrite A0, I0, P0, A1, I1, P1. cbn. rewrite <- app_assoc.
  repeat split.
Qed.

(** ** The interval of the sampling effect *)

Lemma deps_eqb_eq (x y : Mode * bool * bool) : deps_eqb x y = true -> x = y.
Proof.
  destruct x as [[m1 s1] p1], y as [[m2 s2] p2]. cbn.
  destruct m1, m2, s1, s2, p1, p2; cbn; congruence.
Qed.

Lemma live_deps (a b : AppState) : deps_of a = deps_of b -> live a = live b.
Proof. unfold deps_of, live. intros [= -> -> ->]. reflexivity. Qed.

Lemma fire_frame (cb : TimerCallback) (shot : Frame) (now : float)
  (w : World) :
  let w1 := exec (fire cb shot now) w in
  timers w1 = timers w
  /\ nextTimerId w1 = nextTimerId w
  /\ effectInterval w1 = effectInterval w
  /\ effectDeps w1 = effectDeps w
  /\ deps_of (app w1) = deps_of (app w)
  /\ (renderScheduled w1 = true \/ renderScheduled w1 = renderScheduled w).
Proof.
  unfold fire, captureAndAnalyzeFrame, videoRef_current, sendFrame_post,
    setLoading.
  unfold_js. destruct cb; cbn; split_matches; repeat split; auto.
Qed.

Lemma fire_all_frame (ts : list Timer) (shot : Frame) (now : float) :
  forall w : World,
    let w1 := fire_all ts shot now w in
    timers w1 = timers w
    /\ nextTimerId w1 = nextTimerId w
    /\ effectInterval w1 = effectInterval w
    /\ effectDeps w1 = effectDeps w
    /\ deps_of (app w1) = deps_of (app w)
    /\ (renderScheduled w1 = true \/ renderScheduled w1 = renderScheduled w).
Proof.
  induction ts as [|t rest IH]; intros w; [cbn; repeat split; auto|].
  cbn [fire_all]. cbv zeta.
  destruct (IH (exec (fire (callback t) shot now) w))
    as (-> & -> & -> & -> & -> & Hr).
  destruct (fire_frame (callback t) shot now w)
    as (-> & -> & -> & -> & -> & Hr').
  repeat split. destruct Hr as [Hr|Hr]; [now left|].
  rewrite Hr. exact Hr'.
Qed.

(** What a handler may do to the timers and to the effect: it creates no
    interval of the effect, and it leaves the dependency values alone unless
    it schedules a render. *)
Lemma handler_frame (w : World) (e : Event) :
  let w1 := exec (handler e) w in
  effect_timers w1 = effect_timers w
  /\ effectInterval w1 = effectInterval w
  /\ effectDeps w1 = effectDeps w
  /\ (renderScheduled w1 = true
      \/ (renderScheduled w1 = renderScheduled w
          /\ deps_of (app w1) = deps_of (app w))).
Proof.
  cbv zeta. unfold effect_timers. destruct e; cbn [handler].
  - repeat split; auto.
  - repeat split; auto.
  - unfold startWebcam, getUserMedia, videoRef_current, set_current,
      setStreaming, setMode, alert.
    unfold_js. destruct r; cbn; split_matches; repeat split; auto.
  - unfold stopWebcam, stop_tracks, setStreaming, setMode.
    unfold_js. cbn. split_matches; repeat split; auto.
  - unfold handleImageChange, sendFrame_post, setLoading.
    unfold_js. destruct file; cbn; repeat split; auto.
  - unfold handleVideoChange, set_current, setVideoFile, setVideoUrl,
      setResult, setAnalysisHistory, alert.
    unfold_js. destruct file; cbn; split_matches; repeat split; auto.
  - unfold video_plays, handleVideoPlay, startFrameCapture, setInterval,
      set_current, setIsPlaying, add_interval.
    unfold_js. cbn. split_matches; repeat split; auto.
    all: rewrite filter_app; cbn; apply app_nil_r.
  - unfold video_pauses, handleVideoPause, set_current, setIsPlaying.
    unfold_js. cbn. split_matches; repeat split; auto.
  - repeat split; auto.
  - unfold_js. cbn [snd].
    destruct (fire_all_frame (timers w) shot now w)
      as (-> & _ & -> & -> & -> & Hr).
    repeat split. destruct Hr; auto.
  - unfold settle, sendFrame_resume, await_post, drawOverlay, setResult,
      setAnalysisHistory, setLoading.
    unfold_js. cbn.
    destruct (nth_error (inflight w) i) as [[f ts]|];
      [destruct o|]; cbn; repeat split; auto.
  - unfold image_loads. unfold_js. cbn.
    destruct (nth_error (pendingImages w) i) as [[d f]|]; cbn;
      repeat split; auto.
Qed.

Lemma effect_timers_cleared (w : World) :
  match effectInterval w with
  | Some i => exists cb, effect_timers w = [{| timerId := i; callback := cb |}]
  | None => effect_timers w = []
  end ->
  effect_timers (sampling_cleanup w) = [].
Proof.
  unfold sampling_cleanup, clearInterval, effect_timers.
  destruct (effectInterval w) as [i|]; [|auto].
  intros [cb H]. cbn [timers with_timers].
  assert (Hc : forall l : list Timer,
             filter is_effect_timer
               (filter (fun t => negb (Nat.eqb (timerId t) i)) l)
             = filter (fun t => negb (Nat.eqb (timerId t) i))
                 (filter is_effect_timer l)).
  { induction l as [|t l IH]; [reflexivity|]. cbn.
    destruct (is_effect_timer t) eqn:E1,
      (negb (Nat.eqb (timerId t) i)) eqn:E2; cbn; rewrite ?E1, ?E2, IH;
      reflexivity. }
  rewrite Hc, H. cbn. now rewrite Nat.eqb_refl.
Qed.

Lemma commit_keeps_effect_in_step (w0 w1 : World) :
  effect_in_step w0 ->
  effect_timers w1 = effect_timers w0 ->
  effectInterval w1 = effectInterval w0 ->
  effectDeps w1 = effectDeps w0 ->
  (renderScheduled w1 = true
   \/ (renderScheduled w1 = renderScheduled w0
       /\ deps_of (app w1) = deps_of (app w0))) ->
  effect_in_step (commit w1).
Proof.
  intros (Hr0 & Hd0 & Hi0) Ht Hi Hd Hr.
  assert (Hheld : match effectInterval w1 with
                  | Some i =>
                      exists cb,
                        effect_timers w1 = [{| timerId := i; callback := cb |}]
                  | None => effect_timers w1 = []
                  end).
  { rewrite Hi, Ht. destruct (effectInterval w0); [apply Hi0 | exact Hi0]. }
  unfold commit. destruct (renderScheduled w1) eqn:E.
  - cbv zeta. cbn [app rendered with_videoRef effectDeps].
    destruct (deps_eqb (deps_of (app w1)) (effectDeps w1)) eqn:Eq.
    + apply deps_eqb_eq in Eq. unfold effect_in_step.
      cbn [renderScheduled rendered with_videoRef effectDeps app
           effectInterval].
      split; [reflexivity|]. split; [now symmetry|].
      change (effect_timers (rendered (with_videoRef
                (mount_video (app w1) (videoRef w1)) w1)))
        with (effect_timers w1).
      rewrite Hi, Ht.
      destruct (effectInterval w0) as [i|]; [|exact Hi0].
      split; [|apply Hi0].
      rewrite (live_deps (app w1) (app w0)); [apply Hi0|].
      now rewrite Eq, Hd, Hd0.
    + set (w2 := rendered (with_videoRef
                             (mount_video (app w1) (videoRef w1)) w1)).
      assert (Hc : effect_timers (sampling_cleanup w2) = []).
      { apply effect_timers_cleared. exact Hheld. }
      assert (Hrc : renderScheduled (sampling_cleanup w2) = false).
      { unfold sampling_cleanup. now rewrite clearInterval_rendered. }
      assert (Hac : app (sampling_cleanup w2) = app w1).
      { unfold sampling_cleanup. now rewrite clearInterval_app. }
      revert Hc Hrc Hac. generalize (sampling_cleanup w2). intros w3 Hc Hrc Hac.
      unfold sampling_effect, effect_in_step, live, effect_timers in *.
      rewrite Hac.
      destruct (mode_eqb (mode (app w1)) Webcam && streaming (app w1)) eqn:B1.
      * cbn. rewrite Hac, B1. repeat split; auto.
        rewrite filter_app, Hc. cbn. eexists. reflexivity.
      * destruct (mode_eqb (mode (app w1)) Video && isPlaying (app w1)) eqn:B2;
          cbn [andb].
        -- destruct (videoRef w3); cbn; rewrite ?Hac, ?B1, ?B2;
             repeat split; auto.
           rewrite filter_app, Hc. cbn. eexists. reflexivity.
        -- cbn. rewrite Hac. repeat split; auto.
  - destruct Hr as [Hr|[Hr Hdeps]]; [congruence|].
    unfold effect_in_step. split; [exact E|]. split; [congruence|].
    rewrite Hi, Ht. destruct (effectInterval w0) as [i|]; [|exact Hi0].
    split; [|apply Hi0]. rewrite (live_deps (app w1) (app w0) Hdeps).
    apply Hi0.
Qed.

Lemma step_keeps_effect_in_step (w : World) (e : Event) :
  effect_in_step w -> effect_in_step (step w e).
Proof.
  intros H. unfold step.
  destruct (handler_frame w e) as (Ht & Hi & Hd & Hr).
  now apply (commit_keeps_effect_in_step w).
Qed.

Lemma run_keeps_effect_in_step (es : list Event) :
  forall w : World, effect_in_step w -> effect_in_step (run w es).
Proof.
  induction es as [|e rest IH]; intros w H; [exact H|].
  cbn [run fold_left]. apply IH. now apply step_keeps_effect_in_step.
Qed.

(** X11: the sampling effect never leaks an interval.  In every state the
    page can reach, at most one interval created by the effect is active; it
    is the one the effect's cleanup will clear; and there is none unless the
    page is in webcam mode and streaming, or in video mode and playing. *)
Theorem effect_holds_at_most_one_interval_while_live :
  forall es : list Event,
    let w := run initial_world es in
    (effect_timers w = [] /\ effectInterval w = None)
    \/ (live (app w) = true
        /\ exists i cb,
             effectInterval w = Some i
             /\ effect_timers w = [{| timerId := i; callback := cb |}]).
Proof.
  intros es w.
  assert (H : effect_in_step w).
  { subst w. apply run_keeps_effect_in_step.
    unfold effect_in_step. cbn. repeat split. }
  destruct H as (_ & _ & H).
  destruct (effectInterval w) as [i|].
  - right. destruct H as [Hl [cb Hcb]]. split; [exact Hl|].
    exists i, cb. split; [reflexivity | exact Hcb].
  - left. split; [exact H | reflexivity].
Qed.

(** ** Intervals of [startFrameCapture] *)

Lemma fire_posts_when_playing (cb : TimerCallback) (shot : Frame)
  (now : float) (w : World) (el : VideoEl) :
  videoRef w = Some el -> paused el = false ->
  let w1 := exec (fire cb shot now) w in
  videoRef w1 = Some el
  /\ sent w1 = S (sent w)
  /\ inflight w1 = inflight w ++ [(shot, now)].
Proof.
  intros Hv Hp. unfold fire, captureAndAnalyzeFrame, videoRef_current,
    sendFrame_post, setLoading.
  unfold_js. destruct cb; cbn; rewrite ?Hv; cbn; rewrite ?Hp; cbn;
    rewrite ?Hv; cbn; repeat split; assumption.
Qed.

Lemma fire_all_posts_when_playing (ts : list Timer) (shot : Frame)
  (now : float) (el : VideoEl) :
  paused el = false ->
  forall w : World,
    videoRef w = Some el ->
    sent (fire_all ts shot now w) = sent w + List.length ts
    /\ inflight (fire_all ts shot now w)
       = inflight w ++ repeat (shot, now) (List.length ts).
Proof.
  intros Hp. induction ts as [|t rest IH]; intros w Hv.
  - cbn. rewrite app_nil_r. split; [lia | reflexivity].
  - cbn [fire_all List.length repeat].
    destruct (fire_posts_when_playing (callback t) shot now w el Hv Hp)
      as (Hv1 & Hs1 & Hi1).
    destruct (IH _ Hv1) as [-> ->]. rewrite Hs1, Hi1, <- app_assoc.
    split; [lia | reflexivity].
Qed.

(** X12: while the video element is mounted and not paused, every active
    interval posts the current frame once per period, whichever call created
    it: the number of requests per period is the number of intervals. *)
Theorem playing_video_is_sampled_once_per_interval :
  forall (w : World) (el : VideoEl) (shot : Frame) (now : float),
    videoRef w = Some el ->
    paused el = false ->
    sent (step w (Tick shot now)) = sent w + List.length (timers w)
    /\ inflight (step w (Tick shot now))
       = inflight w ++ repeat (shot, now) (List.length (timers w)).
Proof.
  intros w el shot now Hv Hp. unfold step.
  match goal with
  | |- context [commit ?x] =>
      destruct (commit_counters x) as (_ & -> & -> & _)
  end.
  cbn [handler]. unfold_js. cbn [snd].
  now apply (fire_all_posts_when_playing _ _ _ el).
Qed.

Lemma handler_timers (w : World) (e : Event) :
  let w1 := exec (handler e) w in
  timers w1 = timers w ++ started_by w e
  /\ nextTimerId w1 = nextTimerId w + List.length (started_by w e).
Proof.
  cbv zeta. destruct e; cbn [handler started_by].
  - cbn. rewrite app_nil_r. split; [reflexivity | lia].
  - cbn. rewrite app_nil_r. split; [reflexivity | lia].
  - unfold startWebcam, getUserMedia, videoRef_current, set_current,
      setStreaming, setMode, alert.
    unfold_js. destruct r; cbn; split_matches; rewrite app_nil_r;
      (split; [reflexivity | lia]).
  - unfold stopWebcam, stop_tracks, setStreaming, setMode.
    unfold_js. cbn. split_matches; rewrite app_nil_r;
      (split; [reflexivity | lia]).
  - unfold handleImageChange, sendFrame_post, setLoading.
    unfold_js. destruct file; cbn; rewrite app_nil_r;
      (split; [reflexivity | lia]).
  - unfold handleVideoChange, set_current, setVideoFile, setVideoUrl,
      setResult, setAnalysisHistory, alert.
    unfold_js. destruct file; cbn; split_matches; rewrite app_nil_r;
      (split; [reflexivity | lia]).
  - unfold video_plays, handleVideoPlay, startFrameCapture, setInterval,
      set_current, setIsPlaying, add_interval.
    unfold_js. cbn.
    destruct (videoRef w) as [el|]; cbn;
      [destruct (slot el); cbn|]; rewrite ?app_nil_r;
      (split; [reflexivity | lia]).
  - unfold video_pauses, handleVideoPause, set_current, setIsPlaying.
    unfold_js. cbn. split_matches; rewrite app_nil_r;
      (split; [reflexivity | lia]).
  - cbn. rewrite app_nil_r. split; [reflexivity | lia].
  - unfold_js. cbn [snd].
    destruct (fire_all_frame (timers w) shot now w) as (-> & -> & _).
    rewrite app_nil_r. cbn [List.length]. split; [reflexivity | lia].
  - unfold settle, sendFrame_resume, await_post, drawOverlay, setResult,
      setAnalysisHistory, setLoading.
    unfold_js. cbn.
    destruct (nth_error (inflight w) i) as [[f ts]|];
      [destruct o|]; cbn; rewrite app_nil_r; (split; [reflexivity | lia]).
  - unfold image_loads. unfold_js. cbn.
    destruct (nth_error (pendingImages w) i) as [[d f]|]; cbn;
      rewrite app_nil_r; (split; [reflexivity | lia]).
Qed.

Lemma started_by_fresh (w : World) (e : Event) (t : Timer) :
  In t (started_by w e) ->
  timerId t = nextTimerId w /\ is_effect_timer t = false.
Proof.
  unfold started_by. destruct e; try contradiction.
  destruct (videoRef w) as [el|]; [|contradiction].
  destruct (slot el); [|contradiction].
  intros [<-|[]]. split; reflexivity.
Qed.

Lemma ids_fresh_extend (l : list Timer) (next : nat) (new : list Timer) :
  NoDup (map timerId l) ->
  (forall t, In t l -> timerId t < next) ->
  List.length new <= 1 ->
  (forall t, In t new -> timerId t = next) ->
  NoDup (map timerId (l ++ new))
  /\ forall t, In t (l ++ new) -> timerId t < next + List.length new.
Proof.
  intros Hnd Hlt Hlen Hnew.
  destruct new as [|t [|t' rest]]; [| |cbn in Hlen; lia].
  - rewrite app_nil_r. split; [exact Hnd|]. intros t Ht.
    specialize (Hlt t Ht). cbn. lia.
  - split.
    + rewrite map_app. cbn.
      apply NoDup_app; [exact Hnd | constructor; [intros []|constructor] |].
      intros x Hx [<-|[]]. apply in_map_iff in Hx as (t0 & Hid & Hin).
      specialize (Hlt t0 Hin). rewrite (Hnew t (or_introl eq_refl)) in Hid.
      lia.
    + intros t0 Hin. apply in_app_or in Hin as [Hin|[<-|[]]].
      * specialize (Hlt t0 Hin). lia.
      * rewrite (Hnew t (or_introl eq_refl)). cbn. lia.
Qed.

Lemma distinct_ids_filter (keep : Timer -> bool) (ts : list Timer) :
  NoDup (map timerId ts) -> NoDup (map timerId (filter keep ts)).
Proof.
  induction ts as [|t ts IH]; intros H; [constructor|].
  cbn in *. inversion H as [|? ? Hnin Hnd]; subst.
  destruct (keep t); [|now apply IH].
  cbn. constructor; [|now apply IH].
  intros Hin. apply Hnin. apply in_map_iff in Hin as (t' & Hid & Hin).
  apply filter_In in Hin as [Hin _]. apply in_map_iff. now exists t'.
Qed.

Lemma timer_of_id_unique (ts : list Timer) (t1 t2 : Timer) :
  NoDup (map timerId ts) -> In t1 ts -> In t2 ts ->
  timerId t1 = timerId t2 -> t1 = t2.
Proof.
  induction ts as [|t ts IH]; intros H H1 H2 E; [contradiction|].
  cbn in H. inversion H as [|? ? Hnin Hnd]; subst.
  destruct H1 as [<-|H1], H2 as [<-|H2]; [reflexivity | | |now apply IH].
  - exfalso. apply Hnin. rewrite E. now apply in_map.
  - exfalso. apply Hnin. rewrite <- E. now apply in_map.
Qed.

Lemma commit_ids_fresh (w : World) : ids_fresh w -> ids_fresh (commit w).
Proof.
  intros [Hnd Hlt]. unfold commit. destruct (renderScheduled w); [|now split].
  cbv zeta.
  match goal with |- context [if ?b then _ else _] => destruct b end;
    [now split|].
  set (w2 := rendered (with_videoRef (mount_video (app w) (videoRef w)) w)).
  assert (H3 : ids_fresh (sampling_cleanup w2)
               /\ nextTimerId (sampling_cleanup w2) = nextTimerId w).
  { unfold sampling_cleanup, clearInterval.
    destruct (effectInterval w2) as [i|]; [|now repeat split].
    split; [|reflexivity]. split; cbn.
    - now apply distinct_ids_filter.
    - intros t Ht. apply filter_In in Ht as [Ht _]. now apply Hlt. }
  destruct H3 as [[Hnd3 Hlt3] Hn3].
  revert Hnd3 Hlt3 Hn3. generalize (sampling_cleanup w2).
  intros w3 Hnd3 Hlt3 Hn3.
  unfold sampling_effect.
  destruct (mode_eqb (mode (app w3)) Webcam && streaming (app w3));
    [|destruct (mode_eqb (mode (app w3)) Video && isPlaying (app w3)
               && match videoRef w3 with Some _ => true | None => false end)].
  3: now split.
  all: unfold ids_fresh; cbn.
  all: match goal with
       | |- context [?l ++ [?t]] =>
           destruct (ids_fresh_extend l (timerId t) [t] Hnd3 Hlt3)
             as [Hn Hl];
             [cbn; lia | intros ? [<-|[]]; reflexivity|]
       end.
  all: split; [exact Hn|].
  all: intros t Ht; specialize (Hl t Ht); cbn in Hl; lia.
Qed.

Lemma step_ids_fresh (w : World) (e : Event) :
  ids_fresh w -> ids_fresh (step w e).
Proof.
  intros [Hnd Hlt]. unfold step. apply commit_ids_fresh.
  destruct (handler_timers w e) as [Ht Hn]. unfold ids_fresh.
  rewrite Ht, Hn.
  apply ids_fresh_extend; [exact Hnd | exact Hlt | |].
  - unfold started_by. destruct e; cbn; try lia.
    destruct (videoRef w) as [el|]; [destruct (slot el)|]; cbn; lia.
  - intros t Hin. now apply started_by_fresh in Hin.
Qed.

Lemma commit_play_timers (w : World) :
  NoDup (map timerId (timers w)) ->
  match effectInterval w with
  | Some i => exists cb, effect_timers w = [{| timerId := i; callback := cb |}]
  | None => effect_timers w = []
  end ->
  play_timers (commit w) = play_timers w.
Proof.
  intros Hnd Hheld. unfold commit. destruct (renderScheduled w); [|reflexivity].
  cbv zeta.
  match goal with |- context [if ?b then _ else _] => destruct b end;
    [reflexivity|].
  set (w2 := rendered (with_videoRef (mount_video (app w) (videoRef w)) w)).
  assert (H3 : play_timers (sampling_cleanup w2) = play_timers w).
  { unfold sampling_cleanup, clearInterval, play_timers.
    change (effectInterval w2) with (effectInterval w).
    change (timers w2) with (timers w).
    destruct (effectInterval w) as [i|]; [|reflexivity].
    destruct Hheld as [cb Hcb]. cbn [timers with_timers].
    assert (Heff : In {| timerId := i; callback := cb |} (timers w)
                   /\ is_effect_timer {| timerId := i; callback := cb |}
                      = true).
    { apply filter_In. unfold effect_timers in Hcb. rewrite Hcb. now left. }
    clear Hcb. destruct Heff as [Hin Heff].
    assert (Hall : forall t, In t (timers w) ->
                     is_effect_timer t = false ->
                     negb (Nat.eqb (timerId t) i) = true).
    { intros t Ht Hp. destruct (Nat.eqb_spec (timerId t) i) as [E|];
        [|reflexivity].
      assert (t = {| timerId := i; callback := cb |})
        by (apply (timer_of_id_unique (timers w)); auto).
      subst t. congruence. }
    revert Hall. generalize (timers w). clear.
    induction l as [|t l IH]; intros Hall; [reflexivity|].
    cbn. destruct (is_effect_timer t) eqn:E.
    - destruct (negb (Nat.eqb (timerId t) i)); cbn; rewrite ?E; cbn;
        apply IH; intros; apply Hall; auto; now right.
    - rewrite (Hall t (or_introl eq_refl) E). cbn. rewrite E. cbn.
      f_equal. apply IH. intros; apply Hall; auto; now right. }
  revert H3. generalize (sampling_cleanup w2). intros w3 H3.
  unfold sampling_effect, play_timers in *.
  destruct (mode_eqb (mode (app w3)) Webcam && streaming (app w3));
    [|destruct (mode_eqb (mode (app w3)) Video && isPlaying (app w3)
               && match videoRef w3 with Some _ => true | None => false end)];
    cbn; rewrite ?filter_app; cbn; rewrite ?app_nil_r; exact H3.
Qed.

Lemma run_reaches_tidy_timers (es : list Event) :
  ids_fresh (run initial_world es) /\ effect_in_step (run initial_world es).
Proof.
  assert (H : forall w, ids_fresh w /\ effect_in_step w ->
                   ids_fresh (run w es) /\ effect_in_step (run w es)).
  { induction es as [|e rest IH]; intros w Hw; [exact Hw|].
    cbn [run fold_left]. apply IH. destruct Hw as [H1 H2].
    split; [now apply step_ids_fresh | now apply step_keeps_effect_in_step]. }
  apply H. split.
  - split; [constructor | intros t []].
  - unfold effect_in_step. cbn. repeat split.
Qed.

(** X13: an interval created by [startFrameCapture] is never cleared.  In
    every state the page can reach, an event leaves all such intervals
    active, in order, and adds one exactly when it is a [play] event of the
    file player. *)
Theorem play_intervals_are_never_cleared :
  forall (es : list Event) (e : Event),
    let w := run initial_world es in
    play_timers (step w e) = play_timers w ++ started_by w e.
Proof.
  intros es e w.
  destruct (run_reaches_tidy_timers es) as [[Hnd Hlt] Heff].
  fold w in Hnd, Hlt, Heff.
  destruct (handler_timers w e) as [Ht Hn].
  destruct (handler_frame w e) as (He & Hi & _).
  unfold step. rewrite commit_play_timers.
  - unfold play_timers. rewrite Ht, filter_app. f_equal.
    unfold started_by. destruct e; try reflexivity.
    destruct (videoRef w) as [el|]; [destruct (slot el)|]; reflexivity.
  - rewrite Ht.
    apply (ids_fresh_extend (timers w) (nextTimerId w)); auto.
    + unfold started_by. destruct e; cbn; try lia.
      destruct (videoRef w) as [el|]; [destruct (slot el)|]; cbn; lia.
    + intros t Hin. now apply started_by_fresh in Hin.
  - rewrite Hi, He. destruct Heff as (_ & _ & H).
    destruct (effectInterval w); [apply H | exact H].
Qed.

(** ** Responses that are not what the client expects *)

(** X14: a response body that is not an object (a string such as an HTML
    page, a number, an array, [null], or nothing at all) is normalised to
    the record of defaults: offsets 0 and status "UNKNOWN"; [sendFrame]
    makes it the current result and pushes it like any other record. *)
Theorem non_object_body_yields_default_record :
  forall (w : World) (f : Frame) (ts : float) (data : JsVal),
    is_object data = false ->
    make_safeData data ts = default_record ts
    /\ result (app (after_sendFrame w (f, ts, Fulfilled data)))
       = Some (default_record ts)
    /\ hd_error (analysisHistory
                   (app (after_sendFrame w (f, ts, Fulfilled data))))
       = Some (default_record ts).
Proof.
  intros w f ts data H.
  assert (E : make_safeData data ts = default_record ts)
    by (destruct data; try discriminate; reflexivity).
  rewrite after_sendFrame_fulfilled_app. cbv zeta. rewrite E.
  repeat split.
Qed.

(** X15: [getStatusColor] answers gray exactly for the values that are
    not one of the three labels, compared as strings and case-sensitively;
    a label is never shown gray. *)
Theorem getStatusColor_is_gray_exactly_for_unknown_labels :
  forall st : JsVal,
    String.eqb (getStatusColor st) "#888888" = negb (known_label st)
    /\ getStatusColor (JStr "ok") = "#888888"
    /\ getStatusColor (JNum 0) = "#888888".
Proof.
  intros st. unfold known_label, getStatusColor.
  destruct (strict_eq_str st "CRITICAL"), (strict_eq_str st "WARNING"),
    (strict_eq_str st "OK"); cbn; repeat split.
Qed.

(** ** Where the detected line is drawn *)

Lemma add_zero_right (c : float) :
  Prim2SF c <> S754_zero true -> (c + 0 = c)%float.
Proof.
  intros Hc. apply Prim2SF_inj. rewrite FloatAxioms.add_spec.
  replace (Prim2SF 0) with (S754_zero false) by reflexivity.
  unfold SF64add, SFadd.
  destruct (Prim2SF c) as [sc|sc| |sc m e]; try reflexivity.
  destruct sc; [congruence|reflexivity].
Qed.

(** X16: when the pixel offset of a record is falsy (0, which is also the
    default for a missing field, NaN, [false] or the empty string), the
    detected line is drawn exactly on the reference line, at
    [canvas.width / 2]. *)
Theorem falsy_offset_draws_on_the_reference_line :
  forall (c : Canvas) (img : Frame) (data : SafeData),
    truthy (alignment_offset_pixels data) = false ->
    let centerX := JNum (num_of_Z (frameWidth img) / 2) in
    let bottom := JNum (num_of_Z (frameHeight img)) in
    map sp_points (strokes (overlay_onload img data c))
    = [ [(centerX, JNum 0); (centerX, bottom)];
        [(centerX, JNum 0); (centerX, bottom)] ].
Proof.
  intros c img data H centerX bottom.
  rewrite overlay_strokes. cbn [map sp_points].
  unfold js_or. rewrite H. unfold js_add. cbn [stringish orb to_number].
  rewrite add_zero_right by apply half_width_not_neg_zero.
  reflexivity.
Qed.

(** X17: a pixel offset that arrives as a non-empty string is not added
    to the centre but appended to its decimal form: the coordinate passed to
    [moveTo] and [lineTo] is the concatenation of the two strings. *)
Theorem string_offset_is_concatenated :
  forall (c : Canvas) (img : Frame) (data : SafeData) (digits : string),
    alignment_offset_pixels data = JStr digits ->
    digits <> EmptyString ->
    let centerX := (num_of_Z (frameWidth img) / 2)%float in
    let detectedX := JStr (number_to_string centerX ++ digits)%string in
    let bottom := JNum (num_of_Z (frameHeight img)) in
    map sp_points (strokes (overlay_onload img data c))
    = [ [(JNum centerX, JNum 0); (JNum centerX, bottom)];
        [(detectedX, JNum 0); (detectedX, bottom)] ].
Proof.
  intros c img data digits Hpx Hne centerX detectedX bottom.
  rewrite overlay_strokes, Hpx. cbn [map sp_points].
  unfold js_or, truthy.
  destruct (String.eqb_spec digits EmptyString) as [E|_]; [contradiction|].
  reflexivity.
Qed.

(** ** Painting *)

(** X18: when an overlay image loads, the canvas becomes what painting that
    image and its record on a blank canvas gives: nothing of an earlier
    overlay survives, and the entry leaves the pending images.  A load for an
    index that is not pending changes nothing. *)
Theorem image_load_repaints_from_scratch :
  forall (w : World) (i : nat),
    let w' := step w (ImageLoads i) in
    match nth_error (pendingImages w) i with
    | Some (data, img) =>
        canvas w' = overlay_onload img data initial_canvas
        /\ pendingImages w' = remove_nth i (pendingImages w)
        /\ app w' = app w
    | None =>
        canvas w' = canvas w /\ pendingImages w' = pendingImages w
        /\ app w' = app w
    end.
Proof.
  intros w i w'. subst w'. unfold step. rewrite commit_app.
  match goal with
  | |- context [commit ?x] => destruct (commit_overlay x) as (-> & ->)
  end.
  cbn [handler]. unfold image_loads. unfold_js.
  destruct (nth_error (pendingImages w) i) as [[data img]|]; cbn;
    repeat split.
Qed.

(** * The webcam-and-upload variant *)

Lemma commit_v2_frame (w : World) :
  app (commit_v2 w) = app w
  /\ streams (commit_v2 w) = streams w
  /\ videoRef (commit_v2 w)
     = if renderScheduled w then mount_video_v2 (app w) (videoRef w)
       else videoRef w.
Proof.
  unfold commit_v2. destruct (renderScheduled w); [|repeat split].
  cbv zeta.
  match goal with |- context [if ?b then _ else _] => destruct b end;
    [repeat split|].
  unfold sampling_effect_v2, sampling_cleanup. cbn [app rendered with_videoRef
    effectInterval].
  destruct (effectInterval w); cbn;
    match goal with |- context [if ?b then _ else _] => destruct b end;
    repeat split.
Qed.

Lemma update_nth_last {A : Type} (f : A -> A) (l : list A) (x : A) :
  update_nth (List.length l) f (l ++ [x]) = l ++ [f x].
Proof. induction l as [|y l IH]; cbn; [reflexivity | now rewrite IH]. Qed.

Lemma map_stop_repeat (n : nat) :
  map (fun _ : bool => false) (repeat true n) = repeat false n.
Proof. induction n as [|n IH]; cbn; [reflexivity | now rewrite IH]. Qed.

Lemma live_repeat_false (n : nat) :
  List.length (filter (fun live => live) (repeat false n)) = 0.
Proof. induction n as [|n IH]; [reflexivity | exact IH]. Qed.

(** X19: in the webcam-and-upload variant the video element is already
    mounted when Start Webcam is clicked, so the stream is attached to the
    element that Stop Webcam later consults: after start and stop every
    track of the acquired stream has ended, the streaming flag is false, and
    the page is still in webcam mode. *)
Theorem variant_stopWebcam_ends_every_acquired_track :
  forall (w : World) (el : VideoEl) (n : nat),
    renderScheduled w = false ->
    mode (app w) = Webcam ->
    videoRef w = Some el ->
    let w1 := step_v2 w (V2ClickStartWebcam (Granted n)) in
    let w2 := step_v2 w1 V2ClickStopWebcam in
    streaming (app w1) = true
    /\ streams w1 = streams w ++ [repeat true n]
    /\ videoRef w1 = Some {| slot := slot el; paused := false;
                             srcObject := Some (List.length (streams w));
                             src := src el |}
    /\ streaming (app w2) = false
    /\ mode (app w2) = Webcam
    /\ streams w2 = streams w ++ [repeat false n]
    /\ live_tracks w2 = live_tracks w.
Proof.
  intros w el n Hr Hm Hv w1 w2.
  set (el1 := {| slot := slot el; paused := false;
                 srcObject := Some (List.length (streams w));
                 src := src el |}).
  assert (E1 : exec (handler_v2 (V2ClickStartWebcam (Granted n))) w
               = with_app (set_streaming true)
                   (with_videoRef (Some el1)
                      (with_streams (streams w ++ [repeat true n]) w))).
  { cbn [handler_v2]. unfold startWebcam_v2, getUserMedia, videoRef_current,
      set_current, setStreaming.
    unfold_js. cbn. rewrite Hv. reflexivity. }
  destruct (commit_v2_frame
              (exec (handler_v2 (V2ClickStartWebcam (Granted n))) w))
    as (A1 & S1 & V1).
  fold (step_v2 w (V2ClickStartWebcam (Granted n))) in A1, S1, V1.
  fold w1 in A1, S1, V1. rewrite E1 in A1, S1, V1.
  unfold mount_video_v2 in V1. cbn in A1, S1, V1. rewrite Hm in V1.
  assert (E2 : exec (handler_v2 V2ClickStopWebcam) w1
               = with_app (set_streaming false)
                   (with_streams
                      (update_nth (List.length (streams w))
                         (map (fun _ => false)) (streams w1)) w1)).
  { cbn [handler_v2]. unfold stopWebcam_v2, stop_tracks, setStreaming.
    unfold_js. cbn. rewrite V1. reflexivity. }
  destruct (commit_v2_frame (exec (handler_v2 V2ClickStopWebcam) w1))
    as (A2 & S2 & _).
  fold (step_v2 w1 V2ClickStopWebcam) in A2, S2. fold w2 in A2, S2.
  rewrite E2 in A2, S2. cbn in A2, S2.
  rewrite S1, update_nth_last, map_stop_repeat in S2.
  rewrite A2, A1, S2, S1, V1. cbn. rewrite Hm.
  repeat split.
  unfold live_tracks at 1. rewrite S2, live_tracks_app.
  cbn [List.concat]. rewrite app_nil_r, live_repeat_false. lia.
Qed.

(** * [AlignmentUpload] *)

Lemma add_nan_is_nan (c : float) :
  PrimFloat.is_nan (c + PrimFloat.nan) = true.
Proof.
  unfold PrimFloat.is_nan.
  rewrite FloatAxioms.eqb_spec, FloatAxioms.add_spec.
  replace (Prim2SF PrimFloat.nan) with S754_nan by reflexivity.
  unfold SF64add, SFadd. destruct (Prim2SF c); reflexivity.
Qed.

(** X20: [AlignmentUpload] reads [data.offset_pixels] without a default.
    For a response that has no such field, both lines are still stroked, but
    the detected one at the coordinate NaN; for a [null] body the handler
    throws after the image has been drawn and strokes nothing. *)
Theorem upload_overlay_needs_the_offset :
  forall (c : Canvas) (img : Frame) (data : JsVal),
    is_nullish data = false ->
    opt_get data "offset_pixels" = JUndefined ->
    let centerX := (num_of_Z (frameWidth img) / 2)%float in
    let bottom := JNum (num_of_Z (frameHeight img)) in
    fst (upload_overlay_onload img data c) = Normal tt
    /\ map sp_style (strokes (snd (upload_overlay_onload img data c)))
       = ["green"; "red"]
    /\ map sp_points (strokes (snd (upload_overlay_onload img data c)))
       = [ [(JNum centerX, JNum 0); (JNum centerX, bottom)];
           [(JNum (centerX + PrimFloat.nan), JNum 0);
            (JNum (centerX + PrimFloat.nan), bottom)] ]
    /\ PrimFloat.is_nan (centerX + PrimFloat.nan) = true
    /\ fst (upload_overlay_onload img JNull c) = Thrown "TypeError"
    /\ drawn (snd (upload_overlay_onload img JNull c)) = [DrawImage img 0 0]
    /\ strokes (snd (upload_overlay_onload img JNull c)) = [].
Proof.
  intros c img data Hn Hk centerX bottom.
  unfold upload_overlay_onload, get_prop. rewrite Hn, Hk.
  repeat split. apply add_nan_is_nan.
Qed.
End Engine.

(** * Instances *)

(** C2 at twenty-one submissions of a 640x480 frame answered by an empty
    body. *)
Lemma C2_history_keeps_twenty_newest_witness :
  let f := {| dataUrl := "data:image/jpeg;base64,AAAA"; frameWidth := 640;
              frameHeight := 480 |} in
  let ticks := repeat (f, 0%float, JNull) 21 in
  20 < List.length ticks
  /\ List.length (analysisHistory (app (after_successes initial_world ticks)))
     = 20.
Proof.
  intros f ticks.
  assert (H : 20 < List.length ticks) by (vm_compute; lia).
  split; [exact H|].
  exact (proj1 (C2_history_keeps_twenty_newest initial_world ticks H)).
Defined.

(** C5 at a 641x480 frame and an offset of 12 pixels: the reference line is
    at 320.5 and the detected line at 332.5. *)
Lemma C5_overlay_line_positions_witness :
  let img := {| dataUrl := "data:image/jpeg;base64,AAAA"; frameWidth := 641;
                frameHeight := 480 |} in
  let data := {| alignment_offset_pixels := JNum 12;
                 alignment_offset_mm := JNum 3; status := JStr "OK";
                 timestamp := 0 |} in
  PrimFloat.is_nan 12 = false
  /\ map sp_points
       (strokes (overlay_onload (fun _ => EmptyString)
                   (fun _ _ => EmptyString) img data initial_canvas))
     = [ [(JNum 320.5, JNum 0); (JNum 320.5, JNum 480)];
         [(JNum 332.5, JNum 0); (JNum 332.5, JNum 480)] ].
Proof.
  intros img data.
  split; [reflexivity|].
  rewrite (proj2 (proj2 (C5_overlay_line_positions
                           (fun _ => EmptyString)
                           (fun _ _ => EmptyString) initial_canvas img
                           data 12%float eq_refl eq_refl))).
  reflexivity.
Defined.

(** C7 at a fresh page and a denied permission. *)
Lemma C7_refused_camera_changes_nothing_witness :
  renderScheduled initial_world = false
  /\ mode (app (step (fun _ => EmptyString) (fun _ _ => EmptyString)
                 initial_world
                 (ClickUseWebcam (Refused "NotAllowedError")))) = Upload.
Proof.
  split; [reflexivity|].
  rewrite (proj1 (proj2 (C7_refused_camera_changes_nothing
                           (fun _ => EmptyString)
                           (fun _ _ => EmptyString) initial_world
                           "NotAllowedError" eq_refl))).
  reflexivity.
Defined.

(** C3 as first stated fails: a status label the analyzer does not document
    is kept in the record, not replaced by "UNKNOWN". *)
Lemma C3_unrecognized_status_is_kept :
  let data := JObj [("alignment_offset_pixels", JNum 4);
                    ("status", JStr "JAMMED")] in
  known_label (opt_get data "status") = false
  /\ status (make_safeData data 0) = JStr "JAMMED"
  /\ status (make_safeData data 0) <> JStr "UNKNOWN".
Proof.
  cbv zeta. split; [reflexivity|]. split; [reflexivity|]. discriminate.
Qed.

(** * Instances of the further properties *)

(** After play and Clear Video the interval of [startFrameCapture] is still
    active, and three periods post nothing. *)
Lemma ticks_change_nothing_without_video_element_witness :
  let nts := fun _ : float => EmptyString in
  let ntf := fun (_ : float) (_ : nat) => EmptyString in
  let file := {| fileName := "belt.mp4"; fileType := "video/mp4";
                 fileSize := 1000 |} in
  let shot := {| dataUrl := "data:image/jpeg;base64,AAAA"; frameWidth := 640;
                 frameHeight := 480 |} in
  let w := run nts ntf initial_world
             [ClickUploadVideo; ChooseVideo (Some file) "blob:1"; VideoPlays;
              ClickClearVideo] in
  renderScheduled w = false
  /\ videoRef w = None
  /\ timers w = [{| timerId := 0; callback := PlayTimer |}]
  /\ sent (run nts ntf w (ticks 3 shot 1)) = sent w.
Proof.
  intros nts ntf file shot w.
  assert (Hr : renderScheduled w = false) by (vm_compute; reflexivity).
  assert (Hv : videoRef w = None) by (vm_compute; reflexivity).
  split; [exact Hr|]. split; [exact Hv|].
  split; [vm_compute; reflexivity|].
  exact (proj2 (ticks_change_nothing_without_video_element
                  nts ntf w shot 1%float 3 Hr Hv)).
Defined.

(** After play and pause, three periods change nothing. *)
Lemma ticks_change_nothing_while_paused_witness :
  let nts := fun _ : float => EmptyString in
  let ntf := fun (_ : float) (_ : nat) => EmptyString in
  let file := {| fileName := "belt.mp4"; fileType := "video/mp4";
                 fileSize := 1000 |} in
  let shot := {| dataUrl := "data:image/jpeg;base64,AAAA"; frameWidth := 640;
                 frameHeight := 480 |} in
  let el := {| slot := FileVideo; paused := true; srcObject := None;
               src := Some "blob:1" |} in
  let w := run nts ntf initial_world
             [ClickUploadVideo; ChooseVideo (Some file) "blob:1"; VideoPlays;
              VideoPauses] in
  renderScheduled w = false
  /\ videoRef w = Some el
  /\ forallb (fun t => negb (is_webcam_timer t)) (timers w) = true
  /\ run nts ntf w (ticks 3 shot 1) = w.
Proof.
  intros nts ntf file shot el w.
  assert (Hr : renderScheduled w = false) by (vm_compute; reflexivity).
  assert (Hv : videoRef w = Some el) by (vm_compute; reflexivity).
  assert (Ht : forallb (fun t => negb (is_webcam_timer t)) (timers w) = true)
    by (vm_compute; reflexivity).
  split; [exact Hr|]. split; [exact Hv|]. split; [exact Ht|].
  exact (ticks_change_nothing_while_paused
           nts ntf w el shot 1%float 3 Hr Hv eq_refl Ht).
Defined.

(** Clear Video while the file plays in video mode. *)
Lemma resetVideo_stops_all_sampling_witness :
  let nts := fun _ : float => EmptyString in
  let ntf := fun (_ : float) (_ : nat) => EmptyString in
  let file := {| fileName := "belt.mp4"; fileType := "video/mp4";
                 fileSize := 1000 |} in
  let shot := {| dataUrl := "data:image/jpeg;base64,AAAA"; frameWidth := 640;
                 frameHeight := 480 |} in
  let w := run nts ntf initial_world
             [ClickUploadVideo; ChooseVideo (Some file) "blob:1"; VideoPlays] in
  mode_eqb (mode (app w)) Webcam = false
  /\ videoRef (step nts ntf w ClickClearVideo) = None.
Proof.
  intros nts ntf file shot w.
  assert (Hm : mode_eqb (mode (app w)) Webcam = false)
    by (vm_compute; reflexivity).
  split; [exact Hm|].
  exact (proj1 (proj2 (resetVideo_stops_all_sampling
                         nts ntf w shot 1%float 3 Hm))).
Defined.

(** An empty change event on a fresh page. *)
Lemma file_inputs_without_file_do_nothing_witness :
  let nts := fun _ : float => EmptyString in
  let ntf := fun (_ : float) (_ : nat) => EmptyString in
  let shot := {| dataUrl := "data:image/jpeg;base64,AAAA"; frameWidth := 640;
                 frameHeight := 480 |} in
  renderScheduled initial_world = false
  /\ step nts ntf initial_world (ChooseImage None) = initial_world.
Proof.
  intros nts ntf shot.
  split; [reflexivity|].
  exact (proj1 (file_inputs_without_file_do_nothing
                  nts ntf initial_world "blob:1" shot eq_refl)).
Defined.

(** A PNG offered to the video input. *)
Lemma handleVideoChange_refuses_other_types_witness :
  let nts := fun _ : float => EmptyString in
  let ntf := fun (_ : float) (_ : nat) => EmptyString in
  let file := {| fileName := "belt.png"; fileType := "image/png";
                 fileSize := 1000 |} in
  renderScheduled initial_world = false
  /\ String.prefix "video/" (fileType file) = false
  /\ step nts ntf initial_world (ChooseVideo (Some file) "blob:1")
     = with_alerts ["Please select a valid video file"] initial_world.
Proof.
  intros nts ntf file.
  split; [reflexivity|]. split; [reflexivity|].
  exact (handleVideoChange_refuses_other_types
           nts ntf initial_world file "blob:1" eq_refl eq_refl).
Defined.

(** An MP4 chosen in video mode. *)
Lemma handleVideoChange_loads_the_player_witness :
  let nts := fun _ : float => EmptyString in
  let ntf := fun (_ : float) (_ : nat) => EmptyString in
  let file := {| fileName := "belt.mp4"; fileType := "video/mp4";
                 fileSize := 1000 |} in
  let w := step nts ntf initial_world ClickUploadVideo in
  String.prefix "video/" (fileType file) = true
  /\ mode_eqb (mode (app w)) Webcam = false
  /\ videoUrl (app (step nts ntf w (ChooseVideo (Some file) "blob:1")))
     = Some "blob:1".
Proof.
  intros nts ntf file w.
  assert (Hm : mode_eqb (mode (app w)) Webcam = false)
    by (vm_compute; reflexivity).
  split; [reflexivity|]. split; [exact Hm|].
  exact (proj1 (proj2 (handleVideoChange_loads_the_player
                         nts ntf w file "blob:1" eq_refl Hm))).
Defined.

(** A granted Use Webcam on a fresh page adds one stream. *)
Lemma only_stopWebcam_releases_the_camera_witness :
  let nts := fun _ : float => EmptyString in
  let ntf := fun (_ : float) (_ : nat) => EmptyString in
  ClickUseWebcam (Granted 1) <> ClickStopWebcam
  /\ streams (step nts ntf initial_world (ClickUseWebcam (Granted 1)))
     = [[true]].
Proof.
  intros nts ntf.
  assert (H : ClickUseWebcam (Granted 1) <> ClickStopWebcam) by discriminate.
  split; [exact H|].
  exact (only_stopWebcam_releases_the_camera
           nts ntf initial_world (ClickUseWebcam (Granted 1)) H).
Defined.

(** Use Webcam, granted, on a fresh page. *)
Lemma startWebcam_without_video_element_leaks_the_stream_witness :
  let nts := fun _ : float => EmptyString in
  let ntf := fun (_ : float) (_ : nat) => EmptyString in
  renderScheduled initial_world = false
  /\ videoRef initial_world = None
  /\ live_tracks (step nts ntf initial_world (ClickUseWebcam (Granted 1)))
     = live_tracks initial_world + 1.
Proof.
  intros nts ntf.
  split; [reflexivity|]. split; [reflexivity|].
  exact (proj2 (proj2 (proj2
           (startWebcam_without_video_element_leaks_the_stream
              nts ntf initial_world 1 eq_refl eq_refl)))).
Defined.

(** Use Webcam clicked a second time in webcam mode attaches the second
    stream to the webcam view; [stopWebcam] then ends that one. *)
Lemma stopWebcam_ends_the_attached_stream_witness :
  let nts := fun _ : float => EmptyString in
  let ntf := fun (_ : float) (_ : nat) => EmptyString in
  let file := {| fileName := "belt.mp4"; fileType := "video/mp4";
                 fileSize := 1000 |} in
  let el := {| slot := WebcamVideo; paused := false; srcObject := Some 1;
               src := None |} in
  let w := run nts ntf initial_world
             [ClickUploadVideo; ChooseVideo (Some file) "blob:1";
              ClickUseWebcam (Granted 1); ClickUseWebcam (Granted 1)] in
  videoRef w = Some el
  /\ nth_error (streams w) 1 = Some [true]
  /\ nth_error (streams (exec stopWebcam w)) 1 = Some [false].
Proof.
  intros nts ntf file el w.
  assert (Hv : videoRef w = Some el) by (vm_compute; reflexivity).
  assert (Hn : nth_error (streams w) 1 = Some [true])
    by (vm_compute; reflexivity).
  split; [exact Hv|]. split; [exact Hn|].
  exact (proj1 (stopWebcam_ends_the_attached_stream
                  w el 1 [true] Hv eq_refl Hn)).
Defined.

(** Two images chosen in a row, the second answered first. *)
Lemma late_response_overwrites_newer_result_witness :
  let nts := fun _ : float => EmptyString in
  let ntf := fun (_ : float) (_ : nat) => EmptyString in
  let f1 := {| dataUrl := "data:image/jpeg;base64,AAAA"; frameWidth := 640;
               frameHeight := 480 |} in
  let f2 := {| dataUrl := "data:image/jpeg;base64,BBBB"; frameWidth := 640;
               frameHeight := 480 |} in
  let d1 := JObj [("status", JStr "OK")] in
  let d2 := JObj [("status", JStr "CRITICAL")] in
  let w := run nts ntf initial_world
             [ChooseImage (Some f1); ChooseImage (Some f2)] in
  inflight w = [(f1, 0%float); (f2, 0%float)]
  /\ result (app (run nts ntf w [Response 1 (Fulfilled d2);
                                 Response 0 (Fulfilled d1)]))
     = Some (make_safeData d1 0).
Proof.
  intros nts ntf f1 f2 d1 d2 w.
  assert (Hi : inflight w = [(f1, 0%float); (f2, 0%float)])
    by (vm_compute; reflexivity).
  split; [exact Hi|].
  exact (proj1 (late_response_overwrites_newer_result
                  nts ntf w f1 f2 0%float 0%float d1 d2 Hi)).
Defined.

(** An HTML page answered with status 200. *)
Lemma non_object_body_yields_default_record_witness :
  let f := {| dataUrl := "data:image/jpeg;base64,AAAA"; frameWidth := 640;
              frameHeight := 480 |} in
  is_object (JStr "<html>") = false
  /\ make_safeData (JStr "<html>") 0 = default_record 0.
Proof.
  intros f.
  split; [reflexivity|].
  exact (proj1 (non_object_body_yields_default_record
                  initial_world f 0%float (JStr "<html>") eq_refl)).
Defined.

(** The record of an empty response body. *)
Lemma falsy_offset_draws_on_the_reference_line_witness :
  let nts := fun _ : float => EmptyString in
  let ntf := fun (_ : float) (_ : nat) => EmptyString in
  let img := {| dataUrl := "data:image/jpeg;base64,AAAA"; frameWidth := 640;
                frameHeight := 480 |} in
  let data := make_safeData (JObj []) 0 in
  truthy (alignment_offset_pixels data) = false
  /\ map sp_points (strokes (overlay_onload nts ntf img data initial_canvas))
     = [ [(JNum 320, JNum 0); (JNum 320, JNum 480)];
         [(JNum 320, JNum 0); (JNum 320, JNum 480)] ].
Proof.
  intros nts ntf img data.
  split; [reflexivity|].
  rewrite (falsy_offset_draws_on_the_reference_line
             nts ntf initial_canvas img data eq_refl).
  reflexivity.
Defined.

(** The offset "12" on a 640 pixel wide frame, with a printer that writes
    320 for the centre. *)
Lemma string_offset_is_concatenated_witness :
  let nts := fun _ : float => "320" in
  let ntf := fun (_ : float) (_ : nat) => EmptyString in
  let img := {| dataUrl := "data:image/jpeg;base64,AAAA"; frameWidth := 640;
                frameHeight := 480 |} in
  let data := make_safeData (JObj [("alignment_offset_pixels", JStr "12")]) 0 in
  alignment_offset_pixels data = JStr "12"
  /\ "12" <> EmptyString
  /\ map sp_points (strokes (overlay_onload nts ntf img data initial_canvas))
     = [ [(JNum 320, JNum 0); (JNum 320, JNum 480)];
         [(JStr "32012", JNum 0); (JStr "32012", JNum 480)] ].
Proof.
  intros nts ntf img data.
  assert (Hne : "12" <> EmptyString) by discriminate.
  split; [reflexivity|]. split; [exact Hne|].
  rewrite (string_offset_is_concatenated
             nts ntf initial_canvas img data "12" eq_refl Hne).
  reflexivity.
Defined.

(** The variant, from its fresh page: Use Webcam, Start Webcam, Stop
    Webcam. *)
Lemma variant_stopWebcam_ends_every_acquired_track_witness :
  let el := {| slot := WebcamVideo; paused := true; srcObject := None;
               src := None |} in
  let w := step_v2 initial_world V2ClickUseWebcam in
  renderScheduled w = false
  /\ mode (app w) = Webcam
  /\ videoRef w = Some el
  /\ feasible_v2 initial_world
       [V2ClickUseWebcam; V2ClickStartWebcam (Granted 1); V2ClickStopWebcam]
     = true
  /\ live_tracks (step_v2 (step_v2 w (V2ClickStartWebcam (Granted 1)))
                    V2ClickStopWebcam)
     = live_tracks w.
Proof.
  intros el w.
  split; [reflexivity|]. split; [reflexivity|]. split; [reflexivity|].
  split; [vm_compute; reflexivity|].
  exact (proj2 (proj2 (proj2 (proj2 (proj2 (proj2
           (variant_stopWebcam_ends_every_acquired_track
              w el 1 eq_refl eq_refl eq_refl))))))).
Defined.

(** A response that carries only [offset_mm]. *)
Lemma upload_overlay_needs_the_offset_witness :
  let nts := fun _ : float => EmptyString in
  let img := {| dataUrl := "blob:2"; frameWidth := 640; frameHeight := 480 |} in
  let data := JObj [("offset_mm", JNum 3)] in
  is_nullish data = false
  /\ opt_get data "offset_pixels" = JUndefined
  /\ fst (upload_overlay_onload nts img data initial_canvas)
     = @Normal unit tt.
Proof.
  intros nts img data.
  split; [reflexivity|]. split; [reflexivity|].
  exact (proj1 (upload_overlay_needs_the_offset
                  nts initial_canvas img data eq_refl eq_refl)).
Defined.

(** While the file plays in video mode two intervals are active, and a
    period posts two requests. *)
Lemma playing_video_is_sampled_once_per_interval_witness :
  let nts := fun _ : float => EmptyString in
  let ntf := fun (_ : float) (_ : nat) => EmptyString in
  let file := {| fileName := "belt.mp4"; fileType := "video/mp4";
                 fileSize := 1000 |} in
  let shot := {| dataUrl := "data:image/jpeg;base64,AAAA"; frameWidth := 640;
                 frameHeight := 480 |} in
  let el := {| slot := FileVideo; paused := false; srcObject := None;
               src := Some "blob:1" |} in
  let w := run nts ntf initial_world
             [ClickUploadVideo; ChooseVideo (Some file) "blob:1"; VideoPlays] in
  videoRef w = Some el
  /\ List.length (timers w) = 2
  /\ sent (step nts ntf w (Tick shot 1)) = sent w + List.length (timers w).
Proof.
  intros nts ntf file shot el w.
  assert (Hv : videoRef w = Some el) by (vm_compute; reflexivity).
  split; [exact Hv|]. split; [vm_compute; reflexivity|].
  exact (proj1 (playing_video_is_sampled_once_per_interval
                  nts ntf w el shot 1%float Hv eq_refl)).
Defined.
